(** * research-trend-follower: the scraper pipeline of [src/scraper_py.py]

    A shallow embedding of the trending-papers scraper: the card extractor
    over the parsed listing markup, the page loop with its politeness delay,
    the batch timestamp, the per-record metadata enrichment and the append
    to the SQLite table.

    Third-party libraries are represented by what the script relies on:
    - the tree [html.parser] builds is the input of the extractor
      ([node]); [find_all], [find], [decompose] and [get_text] are written
      over that tree;
    - a [DataFrame] is a list of column labels and a list of rows, each row
      a finite map from labels to Python values;
    - the HTTP endpoint, the clock, the metadata client and the SQLite file
      are the environment and the world of a small state-and-exception
      monad that also records the trace of effects. *)

From stdpp Require Import base option list strings gmap pretty.
From Stdlib Require Import Ascii ZArith.

Local Open Scope string_scope.
Local Open Scope list_scope.
Local Open Scope nat_scope.

(** ** Python string operations used by the script (8-bit characters) *)

Module Py.

(** [s.startswith(pre)] *)
Definition startswith (s pre : string) : bool := String.prefix pre s.

Definition cons_head (c : ascii) (pieces : list string) : list string :=
  match pieces with
  | [] => [String c ""]
  | p :: ps => String c p :: ps
  end.

(** The left-to-right, non-overlapping scan of [s.split(sep)]: [skip]
    counts the characters of a separator just matched that are still to be
    passed over. The separator is not empty (Python raises [ValueError]
    for an empty one; the script passes a literal). *)
Fixpoint split_from (sep : string) (skip : nat) (s : string) : list string :=
  match s with
  | "" => [""]
  | String c s' =>
      match skip with
      | S k => split_from sep k s'
      | O =>
          if String.prefix sep s
          then "" :: split_from sep (String.length sep - 1) s'
          else cons_head c (split_from sep 0 s')
      end
  end.

(** [s.split(sep)] *)
Definition split (s sep : string) : list string := split_from sep 0 s.

(** [pieces[-1]] on a list of strings ([split] never returns an empty list) *)
Definition last_piece (pieces : list string) : string := List.last pieces "".

(** [sep in s] *)
Fixpoint contains (sep s : string) : bool :=
  String.prefix sep s ||
  match s with
  | "" => false
  | String _ s' => contains sep s'
  end.

(** [c.isspace()] for the characters below 256 *)
Definition isspace (c : ascii) : bool :=
  let n := nat_of_ascii c in
  ((9 <=? n) && (n <=? 13)) || ((28 <=? n) && (n <=? 32))
  || (n =? 133) || (n =? 160).

Fixpoint lstrip (s : string) : string :=
  match s with
  | "" => ""
  | String c s' => if isspace c then lstrip s' else s
  end.

Fixpoint rstrip (s : string) : string :=
  match s with
  | "" => ""
  | String c s' =>
      match rstrip s' with
      | "" => if isspace c then "" else String c ""
      | r => String c r
      end
  end.

(** [s.strip()] *)
Definition strip (s : string) : string := rstrip (lstrip s).

(** Truthiness of a string: [if s:] *)
Definition truthy (s : string) : bool := negb (String.eqb s "").

End Py.

(** ** The parsed markup *)

(** An element carries its tag name, the tokens of its [class] attribute
    (the parser stores that attribute as a list), its other attributes and
    its children; the other nodes are character data. *)
#[warnings="-register-all"]
Inductive node : Type :=
  | Text (s : string)
  | Elem (name : string) (classes : list string)
         (attrs : gmap string string) (kids : list node).

Module Soup.

Definition name_of (n : node) : option string :=
  match n with
  | Text _ => None
  | Elem nm _ _ _ => Some nm
  end.

Definition classes_of (n : node) : list string :=
  match n with
  | Text _ => []
  | Elem _ cs _ _ => cs
  end.

(** [tag.get(key)] *)
Definition attr (key : string) (n : node) : option string :=
  match n with
  | Text _ => None
  | Elem _ _ a _ => a !! key
  end.

(** Every node below [n], in document order ([tag.descendants]). *)
Fixpoint descendants (n : node) : list node :=
  match n with
  | Text _ => []
  | Elem _ _ _ ks => flat_map (fun k => k :: descendants k) ks
  end.

Definition is_tag (nm : string) (n : node) : bool :=
  match name_of n with
  | Some nm' => String.eqb nm nm'
  | None => false
  end.

(** The [class_=wanted] filter: one token equals [wanted], or the tokens
    joined by single spaces do. *)
Definition has_class (wanted : string) (n : node) : bool :=
  existsb (String.eqb wanted) (classes_of n)
  || String.eqb (String.concat " " (classes_of n)) wanted.

(** [root.find_all(nm, class_=cls)] *)
Definition find_all (nm cls : string) (root : node) : list node :=
  filter (fun n => is_tag nm n && has_class cls n) (descendants root).

(** [root.find(nm, class_=cls)] *)
Definition find (nm cls : string) (root : node) : option node :=
  head (find_all nm cls root).

(** [root.find(nm, **{key: True})]: the first [nm] element that has the
    attribute. *)
Definition find_with_attr (nm key : string) (root : node) : option node :=
  head (filter (fun n => is_tag nm n && bool_decide (is_Some (attr key n)))
               (descendants root)).

(** [tag.get_text(strip=True)]: the stripped, non-empty strings below the
    tag, concatenated. *)
Definition text_of (n : node) : list string :=
  match n with
  | Text s => [s]
  | Elem _ _ _ _ => []
  end.

Definition get_text_strip (root : node) : string :=
  String.concat ""
    (filter (fun s => Py.truthy s)
            (map Py.strip (flat_map text_of (descendants root)))).

(** [for tag in soup.find_all(names): tag.decompose()]: every element
    with one of the names leaves the tree together with what it holds. *)
Definition named_in (names : list string) (n : node) : bool :=
  match name_of n with
  | Some nm => existsb (String.eqb nm) names
  | None => false
  end.

Fixpoint decompose_all (names : list string) (n : node) : node :=
  match n with
  | Text s => Text s
  | Elem nm cs a ks =>
      Elem nm cs a
        (flat_map (fun k => if named_in names k then []
                            else [decompose_all names k]) ks)
  end.

End Soup.

(** ** Python values, records and the data frame *)

(** What a dictionary entry or a table cell holds: [None], a string, an
    integer, or another object known by its printed form. *)
Inductive value : Type :=
  | VNone
  | VStr (s : string)
  | VInt (z : Z)
  | VObj (repr : string).

#[global] Instance value_eq_dec : EqDecision value.
Proof. solve_decision. Defined.

(** [x if x is not None else None] for an optional text *)
Definition opt_str (o : option string) : value :=
  match o with
  | Some s => VStr s
  | None => VNone
  end.

(** [str(v)], as an f-string renders it *)
Definition py_str (v : value) : string :=
  match v with
  | VNone => "None"
  | VStr s => s
  | VInt z => pretty z
  | VObj r => r
  end.

(** A dictionary literal, keys in insertion order. *)
Definition record : Type := list (string * value).

(** [d.get(key)] *)
Definition dict_get (d : record) (key : string) : value :=
  match list_find (fun kv => kv.1 = key) d with
  | Some (_, (_, v)) => v
  | None => VNone
  end.

Record DataFrame : Type := mkDataFrame {
  columns : list string;
  rows : list (gmap string value)
}.

Module Pd.

Definition add_label (cols : list string) (c : string) : list string :=
  if bool_decide (c ∈ cols) then cols else cols ++ [c].

(** [pd.DataFrame(records)]: one row per dictionary, the columns are the
    keys in order of first appearance. An empty list gives a frame with no
    column and no row. *)
Definition DataFrame_of_records (records : list record) : DataFrame :=
  {| columns := fold_left add_label (flat_map (map fst) records) [];
     rows := map (fun r : record => list_to_map r) records |}.

(** [df[col] = v] for a scalar [v]: the column is added when new, and
    every row gets the value. *)
Definition setitem (col : string) (v : value) (df : DataFrame) : DataFrame :=
  {| columns := add_label (columns df) col;
     rows := map (fun r : gmap string value => <[col := v]> r) (rows df) |}.

(** [df.at[idx, col] = v] for a label [idx] of the frame's range index
    (the script only passes labels that [iterrows] produced). *)
Definition at_set (idx : nat) (col : string) (v : value) (df : DataFrame)
  : DataFrame :=
  {| columns := columns df;
     rows := alter (fun r : gmap string value => <[col := v]> r) idx (rows df) |}.

(** [df.empty]: an axis of length zero *)
Definition empty (df : DataFrame) : bool :=
  match columns df, rows df with
  | _ :: _, _ :: _ => false
  | _, _ => true
  end.

(** [len(df)] *)
Definition len (df : DataFrame) : nat := length (rows df).

(** [df.iterrows()]: the labels of the range index with a copy of each
    row, taken when the iteration starts. *)
Definition iterrows (df : DataFrame) : list (nat * gmap string value) :=
  imap (fun i r => (i, r)) (rows df).

End Pd.

(** ** The extractor: lines 45-74 of the script *)

Definition UNWANTED : list string :=
  ["head"; "header"; "footer"; "nav"; "svg"; "img"].
Definition CARD_CLASS : string := "paper-card infinite-item".
Definition IMAGE_COL_CLASS : string := "col-lg-3 item-image-col".
Definition STARS_CLASS : string := "stars-accumulated text-center".
Definition BADGE_CLASS : string := "badge badge-secondary".
Definition PAPER_PREFIX : string := "/paper/".

(** The first link with a target below the card's image column. *)
Definition card_link (card : node) : option string :=
  match Soup.find "div" IMAGE_COL_CLASS card with
  | Some img_col =>
      match Soup.find_with_attr "a" "href" img_col with
      | Some link => Soup.attr "href" link
      | None => None
      end
  | None => None
  end.

(** [paper_id] after lines 54-59. *)
Definition card_paper_id (card : node) : option string :=
  match card_link card with
  | Some href =>
      if Py.startswith href PAPER_PREFIX
      then Some (Py.last_piece (Py.split href PAPER_PREFIX))
      else None
  | None => None
  end.

Definition card_text (cls : string) (tag : string) (card : node)
  : option string :=
  match Soup.find tag cls card with
  | Some el => Some (Soup.get_text_strip el)
  | None => None
  end.

(** The dictionary a card contributes, if any (lines 54-74). *)
Definition card_record (card : node) : option record :=
  let paper_id := card_paper_id card in
  let spr := card_text STARS_CLASS "div" card in
  let stars := card_text BADGE_CLASS "span" card in
  match paper_id with
  | Some id =>
      if Py.truthy id
      then Some [("id", VStr id); ("spr", opt_str spr); ("stars", opt_str stars)]
      else None
  | None => None
  end.

(** The cards the locator finds once the unwanted elements are gone. *)
Definition page_cards (soup : node) : list node :=
  Soup.find_all "div" CARD_CLASS (Soup.decompose_all UNWANTED soup).

(** The body of the page loop after the parse: [records] grows by one
    dictionary per card that has an id. *)
Definition extract_page (soup : node) (records : list record) : list record :=
  fold_left
    (fun records card =>
       match card_record card with
       | Some r => records ++ [r]
       | None => records
       end)
    (page_cards soup) records.

(** The Extractor on one page. *)
Definition extractor (soup : node) : list record := extract_page soup [].

Definition record_id (r : record) : value := dict_get r "id".

(** ** The world of a run *)

(** A raised exception: its class and the text [str(e)] gives. Every
    class that occurs here derives from [Exception]. *)
Record exn : Type := mkExn { exn_class : string; exn_msg : string }.

Inductive outcome (A : Type) : Type :=
  | Ok (a : A)
  | Raise (e : exn).
Arguments Ok {A} a.
Arguments Raise {A} e.

(** The effects a run performs, in the order it performs them. *)
Inductive event : Type :=
  | EvRequest (url : string)
  | EvSleep (secs : nat)
  | EvClock
  | EvLookup (paper_id : value)
  | EvPrint (line : string)
  | EvToSql (db_path table_name : string) (nrows : nat).

(** A table of the SQLite file: its columns and its rows, oldest first;
    a cell that a row does not define is NULL. *)
Record Table : Type := mkTable {
  t_columns : list string;
  t_rows : list (gmap string value)
}.

(** The trace so far, the frame the name [df] of the main block is bound
    to, and the tables by database path and table name. *)
Record world : Type := mkWorld {
  trace : list event;
  frame : DataFrame;
  store : gmap (string * string) Table
}.

(** What [requests.get] returns: the status and the tree the parser
    builds from the body. *)
Record response : Type := mkResponse { status_code : Z; body : node }.

(** The object [client.paper_get] returns. *)
Record Paper : Type := mkPaper {
  title : value;
  arxiv_id : value;
  url_pdf : value;
  abstract : value;
  published : value
}.

(** What is outside the program: the listing endpoint by URL, the clock
    when it is read (POSIX microseconds) and the offset of the host's local
    time zone (seconds east of UTC), and the metadata client's answer to
    the lookup issued for the row labelled [idx]. *)
Record env : Type := mkEnv {
  http_get : string -> exn + response;
  posix_micros : Z;
  utcoffset : Z;
  paper_get : nat -> value -> exn + Paper
}.

Definition M (A : Type) : Type := world -> outcome A * world.

#[global] Instance M_ret : MRet M := fun A a w => (Ok a, w).

#[global] Instance M_bind : MBind M := fun A B k m w =>
  match m w with
  | (Ok a, w') => k a w'
  | (Raise e, w') => (Raise e, w')
  end.

Definition raise {A : Type} (e : exn) : M A := fun w => (Raise e, w).

(** [try: body except Exception as e: handler]; what the body did to the
    world before it raised stays done. *)
Definition try_except {A : Type} (body : M A) (handler : exn -> M A) : M A :=
  fun w =>
    match body w with
    | (Ok a, w') => (Ok a, w')
    | (Raise e, w') => handler e w'
    end.

Definition log (ev : event) (w : world) : world :=
  {| trace := trace w ++ [ev]; frame := frame w; store := store w |}.

Definition emit (ev : event) : M unit := fun w => (Ok tt, log ev w).

Definition get_frame : M DataFrame := fun w => (Ok (frame w), w).

Definition put_frame (df : DataFrame) : M unit := fun w =>
  (Ok tt, {| trace := trace w; frame := df; store := store w |}).

Definition modify_frame (f : DataFrame -> DataFrame) : M unit := fun w =>
  (Ok tt, {| trace := trace w; frame := f (frame w); store := store w |}).

(** [for x in l: f(x)] *)
Fixpoint for_each {A : Type} (f : A -> M unit) (l : list A) : M unit :=
  match l with
  | [] => mret tt
  | x :: l' => f x;; for_each f l'
  end.

(** [print(line)] *)
Definition print (line : string) : M unit := emit (EvPrint line).

(** [time.sleep(secs)] *)
Definition sleep (secs : nat) : M unit := emit (EvSleep secs).

(** ** Configuration (lines 10-13) *)

Definition BASE_URL : string := "https://paperswithcode.com/papers".
Definition PAGES_TO_SCRAPE : nat := 10.
Definition DB_PATH : string := "trending_papers.db".
Definition TABLE_NAME : string := "trending_papers".

(** ** [save_to_sqlite] (lines 19-26) *)

Module Sql.

(** Why SQLite refuses a statement of [to_sql]: the table to create
    would have no column, or the table to insert into lacks a column of
    the frame. *)
Inductive refusal : Type :=
  | NoColumns
  | NoSuchColumn (c : string).

(** [df.to_sql(name, engine, if_exists='append', index=False)] on the
    table as it is: an absent table is created with the frame's columns; a
    frame without rows inserts nothing; otherwise the rows are appended,
    and the store refuses the insert when the frame has a column the table
    lacks. *)
Definition to_sql_append (df : DataFrame) (t : option Table)
  : refusal + Table :=
  match t with
  | None =>
      match columns df with
      | [] => inl NoColumns
      | _ :: _ => inr {| t_columns := columns df; t_rows := rows df |}
      end
  | Some tb =>
      match rows df with
      | [] => inr tb
      | _ :: _ =>
          match list_find (fun c => c ∉ t_columns tb) (columns df) with
          | Some (_, c) => inl (NoSuchColumn c)
          | None =>
              inr {| t_columns := t_columns tb;
                     t_rows := t_rows tb ++ rows df |}
          end
      end
  end.

(** The exception a refused statement surfaces as: the engine's
    [OperationalError]. Its text is the message of SQLite; the statement
    and the parameters the engine appends to it are left out, and nothing
    below depends on the text. *)
Definition operational_error (table_name : string) (r : refusal) : exn :=
  mkExn "OperationalError"
    match r with
    | NoColumns =>
        "near " +:+ String (ascii_of_nat 34) ")"
        +:+ String (ascii_of_nat 34) ": syntax error"
    | NoSuchColumn c =>
        "table " +:+ table_name +:+ " has no column named " +:+ c
    end.

End Sql.

Definition save_to_sqlite (df : DataFrame) (db_path table_name : string)
  : M unit := fun w =>
  let w' := log (EvToSql db_path table_name (Pd.len df)) w in
  match Sql.to_sql_append df (store w !! (db_path, table_name)) with
  | inl r => (Raise (Sql.operational_error table_name r), w')
  | inr tb =>
      (Ok tt, {| trace := trace w'; frame := frame w';
                 store := <[(db_path, table_name) := tb]> (store w') |})
  end.

(** ** The pipeline (lines 29-127) *)

Definition metadata_cols : list string :=
  ["title"; "arxiv_id"; "url_pdf"; "abstract"; "published"].

(** The statuses [raise_for_status] turns into an exception: 4xx and
    5xx. *)
Definition error_status (status : Z) : bool :=
  ((400 <=? status) && (status <? 600))%Z.

(** The success class of HTTP statuses: 2xx. *)
Definition success_status (status : Z) : bool :=
  ((200 <=? status) && (status <? 300))%Z.

(** [f"{BASE_URL}?page={page}"] *)
Definition page_url (page : nat) : string :=
  BASE_URL +:+ "?page=" +:+ pretty page.

Section Pipeline.

Variable E : env.

(** [requests.get(url)] *)
Definition requests_get (url : string) : M response := fun w =>
  match http_get E url with
  | inl e => (Raise e, log (EvRequest url) w)
  | inr r => (Ok r, log (EvRequest url) w)
  end.

(** [response.raise_for_status()]: [HTTPError] for a status of the
    client-error or server-error class, and nothing for any other status. *)
Definition raise_for_status (r : response) : M unit :=
  if error_status (status_code r)
  then raise (mkExn "HTTPError" (pretty (status_code r)))
  else mret tt.

(** [datetime.datetime.utcnow()]: a naive datetime holding the UTC wall
    clock, here as microseconds since 1970-01-01T00:00:00 on that clock. *)
Definition utcnow : M Z := fun w => (Ok (posix_micros E), log EvClock w).

(** [int(d.timestamp())] for a naive [d]: the interpreter reads a naive
    datetime as local time, so the host's offset is taken off before the
    seconds are truncated. The interpreter adds the seconds and the
    microseconds in a double: the quotient below is what it gives as long
    as that sum is not rounded up to the next second, which holds for the
    readings from the epoch to 2^34 seconds after it (the year 2514). *)
Definition int_timestamp (naive_micros : Z) : Z :=
  ((naive_micros - utcoffset E * 1000000) ÷ 1000000)%Z.

(** The page loop (lines 40-77); [pages] is [range(1, pages + 1)]. *)
Fixpoint scrape_pages (pages : list nat) (records : list record)
  : M (list record) :=
  match pages with
  | [] => mret records
  | page :: rest =>
      response ← requests_get (page_url page);
      raise_for_status response;;
      sleep 1;;
      scrape_pages rest (extract_page (body response) records)
  end.

Definition get_current_trending (pages : nat) : M DataFrame :=
  records ← scrape_pages (seq 1 pages) [];
  d ← utcnow;
  mret (Pd.setitem "timestamp" (VInt (int_timestamp d))
          (Pd.DataFrame_of_records records)).

(** [client.paper_get(paper_id)] for the row labelled [idx] *)
Definition client_paper_get (idx : nat) (paper_id : value) : M Paper :=
  fun w =>
    match paper_get E idx paper_id with
    | inl e => (Raise e, log (EvLookup paper_id) w)
    | inr p => (Ok p, log (EvLookup paper_id) w)
    end.

Definition get_paper_metadata (idx : nat) (paper_id : value) : M record :=
  paper_obj ← client_paper_get idx paper_id;
  mret [("title", title paper_obj);
        ("arxiv_id", arxiv_id paper_obj);
        ("url_pdf", url_pdf paper_obj);
        ("abstract", abstract paper_obj);
        ("published", published paper_obj)].

(** [row['id']] *)
Definition getitem (row : gmap string value) (key : string) : M value :=
  match row !! key with
  | Some v => mret v
  | None => raise (mkExn "KeyError" key)
  end.

(** The body of the enrichment loop (lines 117-123). *)
Definition enrich_row (item : nat * gmap string value) : M unit :=
  paper_id ← getitem item.2 "id";
  try_except
    (paper_data ← get_paper_metadata item.1 paper_id;
     for_each
       (fun col => modify_frame (Pd.at_set item.1 col (dict_get paper_data col)))
       metadata_cols)
    (fun e =>
       print ("Error fetching metadata for " +:+ py_str paper_id
              +:+ ": " +:+ exn_msg e)).

(** The enrichment step (lines 109-123) on the frame [df] names. *)
Definition enrich : M unit :=
  for_each (fun col => modify_frame (Pd.setitem col VNone)) metadata_cols;;
  df ← get_frame;
  if negb (Pd.empty df) then for_each enrich_row (Pd.iterrows df) else mret tt.

Definition summary (n : nat) : string :=
  "Appended " +:+ pretty n +:+ " records to SQLite database table '"
  +:+ TABLE_NAME +:+ "' in '" +:+ DB_PATH +:+ "'.".

(** The main block (lines 105-127). *)
Definition main : M unit :=
  df ← get_current_trending PAGES_TO_SCRAPE;
  put_frame df;;
  enrich;;
  df ← get_frame;
  save_to_sqlite df DB_PATH TABLE_NAME;;
  print (summary (Pd.len df)).

End Pipeline.

(** A fresh process on a given SQLite state. *)
Definition start (st : gmap (string * string) Table) : world :=
  {| trace := []; frame := mkDataFrame [] []; store := st |}.

(** The table the script writes to. *)
Definition the_table (w : world) : option Table :=
  store w !! (DB_PATH, TABLE_NAME).

Definition table_rows (w : world) : list (gmap string value) :=
  match the_table w with
  | Some tb => t_rows tb
  | None => []
  end.

(** * The vocabulary of the statements *)

(** ** Cards and records *)

(** The shape of a dictionary the extractor appends. *)
Definition summary_record (r : record) : Prop :=
  ∃ id spr stars,
    r = [("id", VStr id); ("spr", spr); ("stars", stars)] ∧ id ≠ "".

(** A well-formed card: below its image column the first link with a
    target points to [/paper/<id>], for a non-empty [<id>]. *)
Definition links_to (card : node) (id : string) : Prop :=
  card_link card = Some (PAPER_PREFIX +:+ id) ∧ id ≠ "".

(** The four ways in which a card has no id. *)
Definition lacks_id (card : node) : Prop :=
  Soup.find "div" IMAGE_COL_CLASS card = None
  ∨ card_link card = None
  ∨ (∃ href, card_link card = Some href
             ∧ Py.startswith href PAPER_PREFIX = false)
  ∨ card_paper_id card = Some "".

(** ** Traces *)

(** [emits P m]: whatever [m] does, it extends the trace, and only by
    events that satisfy [P]. *)
Definition emits {A : Type} (P : event → Prop) (m : M A) : Prop :=
  ∀ w, ∃ evs, trace (m w).2 = trace w ++ evs ∧ Forall P evs.

(** Kinds of events. *)
Definition is_request (ev : event) : bool :=
  match ev with
  | EvRequest _ => true
  | _ => false
  end.

Definition is_lookup (ev : event) : bool :=
  match ev with
  | EvLookup _ => true
  | _ => false
  end.

Definition no_request (ev : event) : Prop := is_request ev = false.

(** What a visit of one page adds to the trace when it goes through. *)
Definition visit (page : nat) : list event :=
  [EvRequest (page_url page); EvSleep 1].

(** A page whose fetch raises: the request itself fails, or the status is
    one [raise_for_status] refuses. *)
Definition fetch_fails (E : env) (page : nat) : Prop :=
  match http_get E (page_url page) with
  | inl _ => True
  | inr r => error_status (status_code r) = true
  end.

(** A trace in which every request but the last is followed at once by a
    sleep of one second. *)
Inductive polite : list event → Prop :=
  | polite_quiet evs :
      Forall no_request evs → polite evs
  | polite_last url evs :
      Forall no_request evs → polite (EvRequest url :: evs)
  | polite_visit url evs :
      polite evs → polite (EvRequest url :: EvSleep 1 :: evs).

(** The instants at which the requests of a trace are sent, when the
    trace starts at [now] and each effect [ev] lasts [dur ev]. *)
Fixpoint request_times (dur : event → nat) (now : nat) (evs : list event)
  : list nat :=
  match evs with
  | [] => []
  | ev :: evs' =>
      (if is_request ev then [now] else [])
      ++ request_times dur (now + dur ev) evs'
  end.

(** Consecutive instants lie at least [gap] apart. *)
Definition spaced (gap : nat) (times : list nat) : Prop :=
  ∀ i t t', times !! i = Some t → times !! S i = Some t' → t + gap ≤ t'.

(** ** Rows under enrichment *)

(** A row with a cell in the [id] column. *)
Definition has_id (r : gmap string value) : Prop := is_Some (r !! "id").

(** The five writes of a successful merge, in the order of
    [metadata_cols]. *)
Definition merge_paper (p : Paper) (r : gmap string value)
  : gmap string value :=
  <["published" := published p]>
    (<["abstract" := abstract p]>
       (<["url_pdf" := url_pdf p]>
          (<["arxiv_id" := arxiv_id p]>
             (<["title" := title p]> r)))).

(** The effect of a lookup's outcome on the row it was issued for. *)
Definition apply_lookup (res : exn + Paper) (r : gmap string value)
  : gmap string value :=
  match res with
  | inr p => merge_paper p r
  | inl _ => r
  end.

(** A row once the five metadata columns are initialised (lines 110-112). *)
Definition blank_metadata (r : gmap string value) : gmap string value :=
  <["published" := VNone]>
    (<["abstract" := VNone]>
       (<["url_pdf" := VNone]>
          (<["arxiv_id" := VNone]>
             (<["title" := VNone]> r)))).

(** A row as the enrichment loop leaves it. *)
Definition enriched_row (E : env) (idx : nat) (r : gmap string value)
  : gmap string value :=
  match r !! "id" with
  | Some paper_id => apply_lookup (paper_get E idx paper_id) r
  | None => r
  end.

(** The five metadata fields of a row. *)
Definition metadata_of (r : gmap string value) : list (option value) :=
  map (fun col => r !! col) metadata_cols.

(** The five fields of an answer of the client, in the same order. *)
Definition paper_fields (p : Paper) : list (option value) :=
  [Some (title p); Some (arxiv_id p); Some (url_pdf p);
   Some (abstract p); Some (published p)].

(** Five fields at the sentinel, [None]. *)
Definition sentinel_fields : list (option value) :=
  [Some VNone; Some VNone; Some VNone; Some VNone; Some VNone].

(** ** The batch and the rest of the run *)

(** The POSIX time, in whole seconds, at which the clock is read: UTC
    epoch seconds. *)
Definition posix_seconds (E : env) : Z := (posix_micros E ÷ 1000000)%Z.

(** The readings, in microseconds, whose seconds the double of
    [timestamp()] holds without rounding up: from the epoch to 2^34
    seconds after it. *)
Definition in_exact_range (micros : Z) : Prop :=
  (0 ≤ micros < 2 ^ 34 * 1000000)%Z.

(** The stamp of a batch: what line 81 computes from the clock. *)
Definition batch_stamp (E : env) : Z := int_timestamp E (posix_micros E).

(** The frame [get_current_trending] returns for the records it
    gathered. *)
Definition batch_of (E : env) (records : list record) : DataFrame :=
  Pd.setitem "timestamp" (VInt (batch_stamp E))
    (Pd.DataFrame_of_records records).

(** The main block once the batch is there (lines 109-127). *)
Definition finish (E : env) (df : DataFrame) : M unit :=
  put_frame df;;
  enrich E;;
  df ← get_frame;
  save_to_sqlite df DB_PATH TABLE_NAME;;
  print (summary (Pd.len df)).

(** ** The store *)

(** When the store takes the frame: a new table needs a column; an
    existing one takes any frame without rows, and otherwise wants every
    column of the frame. *)
Definition accepts (t : option Table) (df : DataFrame) : Prop :=
  match t with
  | None => columns df ≠ []
  | Some tb => rows df = [] ∨ Forall (fun c => c ∈ t_columns tb) (columns df)
  end.

(** The rows of the named table. *)
Definition rows_of (db_path table_name : string) (w : world)
  : list (gmap string value) :=
  from_option t_rows [] (store w !! (db_path, table_name)).

(** The columns of the table the script fills. *)
Definition TABLE_COLUMNS : list string :=
  ["id"; "spr"; "stars"; "timestamp"] ++ metadata_cols.

(** A store in which the table is absent or has all these columns. *)
Definition table_ready (w : world) : Prop :=
  match the_table w with
  | None => True
  | Some tb => Forall (fun c => c ∈ t_columns tb) TABLE_COLUMNS
  end.

(** ** Pages *)

(** The records a page contributes: what the extractor finds in the body
    the endpoint serves for it. *)
Definition page_records (E : env) (page : nat) : list record :=
  match http_get E (page_url page) with
  | inr r => extractor (body r)
  | inl _ => []
  end.

(** The exception the fetch of a page raises, if any: the one
    [requests.get] raises, or the [HTTPError] of [raise_for_status]. *)
Definition fetch_error (E : env) (page : nat) : option exn :=
  match http_get E (page_url page) with
  | inl e => Some e
  | inr r =>
      if error_status (status_code r)
      then Some (mkExn "HTTPError" (pretty (status_code r)))
      else None
  end.

(** A row of the batch: the dictionary of a record with the stamp. *)
Definition stamped (E : env) (r : record) : gmap string value :=
  <["timestamp" := VInt (batch_stamp E)]> (list_to_map r).

(** The URLs a trace requests, in order. *)
Definition requested (evs : list event) : list string :=
  omap (fun ev => match ev with
                  | EvRequest url => Some url
                  | _ => None
                  end) evs.

(** ** Lookups *)

(** What the loop does for the row labelled [idx]: one lookup with the
    row's id, and one line when the lookup raises. *)
Definition lookup_events (E : env) (idx : nat) (r : gmap string value)
  : list event :=
  match r !! "id" with
  | Some paper_id =>
      match paper_get E idx paper_id with
      | inr _ => [EvLookup paper_id]
      | inl e =>
          [EvLookup paper_id;
           EvPrint ("Error fetching metadata for " +:+ py_str paper_id
                    +:+ ": " +:+ exn_msg e)]
      end
  | None => []
  end.

(** The ids a trace looks up, in order. *)
Definition looked_up (evs : list event) : list value :=
  omap (fun ev => match ev with
                  | EvLookup paper_id => Some paper_id
                  | _ => None
                  end) evs.

(** ** Link targets *)



(** ** Texts *)

(** A text that does not start with white space. *)
Definition starts_clean (s : string) : Prop :=
  match s with
  | "" => True
  | String c _ => Py.isspace c = false
  end.

(** A text with no white space at either end. *)
Definition trimmed (s : string) : Prop := starts_clean s ∧ Py.rstrip s = s.

(** * Sample inputs *)

Module Sample.

Definition link (href : string) : node :=
  Elem "a" [] {[ "href" := href ]} [Elem "img" [] ∅ []].

(** A card with an image column, a stars element and a badge. *)
Definition card (href spr stars : string) : node :=
  Elem "div" ["paper-card"; "infinite-item"] ∅
    [Elem "div" ["col-lg-3"; "item-image-col"] ∅ [link href];
     Elem "div" ["stars-accumulated"; "text-center"] ∅ [Text spr];
     Elem "span" ["badge"; "badge-secondary"] ∅ [Text stars]].

(** A card without an image column. *)
Definition bare_card (spr : string) : node :=
  Elem "div" ["paper-card"; "infinite-item"] ∅
    [Elem "div" ["stars-accumulated"; "text-center"] ∅ [Text spr]].

(** A card with an image column and a stars element, but no badge. *)
Definition half_card (href spr : string) : node :=
  Elem "div" ["paper-card"; "infinite-item"] ∅
    [Elem "div" ["col-lg-3"; "item-image-col"] ∅ [link href];
     Elem "div" ["stars-accumulated"; "text-center"] ∅
       [Text "  "; Elem "b" [] ∅ [Text spr]; Text ""]].

Definition document (cards : list node) : node :=
  Elem "[document]" [] ∅
    [Elem "html" [] ∅
       [Elem "head" [] ∅ [Elem "title" [] ∅ [Text "Trending"]];
        Elem "body" [] ∅ [Elem "nav" [] ∅ [link "/"]; Elem "div" [] ∅ cards]]].

Definition two_cards : node :=
  document [card "/paper/abc123" " 12.3 " "450"; card "/paper/x-1" "2" "7"].

Definition one_of_two : node :=
  document [card "/paper/abc123" " 12.3 " "450"; bare_card "1.0"].

Definition nested_target : node :=
  document [card "/paper/a/paper/b" "1" "2"].

(** Two cards, the first of them inside a header element. *)
Definition card_in_header : node :=
  document [Elem "header" [] ∅ [card "/paper/abc123" " 12.3 " "450"];
            card "/paper/x-1" "2" "7"].

End Sample.

Module SampleBatch.

Definition paper : Paper :=
  {| title := VStr "Foo"; arxiv_id := VStr "2301.00001";
     url_pdf := VStr "http://x/y.pdf"; abstract := VStr "...";
     published := VObj "2023-01-01" |}.

Definition summary_row (id : string) : gmap string value :=
  {[ "id" := VStr id; "spr" := VStr "12.3"; "stars" := VStr "450";
     "timestamp" := VInt 1700000000 ]}.

(** A client that knows every paper but [gone]. *)
Definition client (idx : nat) (paper_id : value) : exn + Paper :=
  if bool_decide (paper_id = VStr "gone")
  then inl (mkExn "HTTPError" "404 Not Found")
  else inr paper.

Definition E : env :=
  {| http_get := fun _ => inl (mkExn "ConnectionError" "unreachable");
     posix_micros := 1700000000000000;
     utcoffset := 0;
     paper_get := client |}.

Definition batch : DataFrame :=
  {| columns := ["id"; "spr"; "stars"; "timestamp"];
     rows := [summary_row "gone"; summary_row "abc123"] |}.

Definition w : world := {| trace := []; frame := batch; store := ∅ |}.

End SampleBatch.

Module SampleRun.

(** An endpoint that serves the two sample cards on page 1 and a listing
    without cards on every other page. *)
Definition listing (url : string) : exn + response :=
  if String.eqb url (page_url 1)
  then inr (mkResponse 200 Sample.two_cards)
  else inr (mkResponse 200 (Sample.document [])).

Definition E : env :=
  {| http_get := listing;
     posix_micros := 1700000000123456;
     utcoffset := 0;
     paper_get := SampleBatch.client |}.

(** Every effect takes a second but [sleep], which takes what it is
    asked to. *)
Definition dur (ev : event) : nat :=
  match ev with
  | EvSleep secs => secs
  | _ => 1
  end.

End SampleRun.

Module SampleNotModified.

(** An endpoint that answers page 1 with 304 and an empty body, and
    serves the two sample cards on page 2. *)
Definition listing (url : string) : exn + response :=
  if String.eqb url (page_url 1)
  then inr (mkResponse 304 (Sample.document []))
  else if String.eqb url (page_url 2)
  then inr (mkResponse 200 Sample.two_cards)
  else inr (mkResponse 200 (Sample.document [])).

Definition E : env :=
  {| http_get := listing;
     posix_micros := 1700000000123456;
     utcoffset := 0;
     paper_get := SampleBatch.client |}.

End SampleNotModified.

Module SampleOutage.

(** An endpoint whose third page answers 503. *)
Definition listing (url : string) : exn + response :=
  if String.eqb url (page_url 3)
  then inr (mkResponse 503 (Sample.document []))
  else inr (mkResponse 200 Sample.two_cards).

Definition E : env :=
  {| http_get := listing;
     posix_micros := 1700000000123456;
     utcoffset := 0;
     paper_get := SampleBatch.client |}.

End SampleOutage.

Module SampleStore.

Definition first_batch : DataFrame :=
  {| columns := ["id"; "spr"];
     rows := [{[ "id" := VStr "a"; "spr" := VStr "1" ]}] |}.

(** The second batch repeats the row of the first. *)
Definition second_batch : DataFrame :=
  {| columns := ["id"; "spr"];
     rows := [{[ "id" := VStr "a"; "spr" := VStr "1" ]};
              {[ "id" := VStr "b"; "spr" := VNone ]}] |}.

Definition after_first : world :=
  (save_to_sqlite first_batch DB_PATH TABLE_NAME (start ∅)).2.

Definition after_second : world :=
  (save_to_sqlite second_batch DB_PATH TABLE_NAME after_first).2.

End SampleStore.

Module SampleEmpty.

(** An endpoint whose listings hold no card. *)
Definition E : env :=
  {| http_get := fun _ => inr (mkResponse 200 (Sample.document []));
     posix_micros := 1700000000123456;
     utcoffset := 0;
     paper_get := SampleBatch.client |}.

(** What a run against it leaves when it starts without a table. *)
Definition after_run : world := (main E (start ∅)).2.

End SampleEmpty.

Module SampleZone.

(** The sample run on a host one hour east of UTC. *)
Definition E : env :=
  {| http_get := SampleRun.listing;
     posix_micros := 1700000000123456;
     utcoffset := 3600;
     paper_get := SampleBatch.client |}.

Definition batch : outcome DataFrame :=
  (get_current_trending E PAGES_TO_SCRAPE (start ∅)).1.

End SampleZone.

Module SampleTwice.

(** An endpoint that serves the same two cards on every page. *)
Definition E : env :=
  {| http_get := fun _ => inr (mkResponse 200 Sample.two_cards);
     posix_micros := 1700000000123456;
     utcoffset := 0;
     paper_get := SampleBatch.client |}.

End SampleTwice.

Module SampleUnreachable.

(** An endpoint that is reached for page 1 and not for page 2. *)
Definition listing (url : string) : exn + response :=
  if String.eqb url (page_url 2)
  then inl (mkExn "ConnectionError" "unreachable")
  else inr (mkResponse 200 Sample.two_cards).

Definition E : env :=
  {| http_get := listing;
     posix_micros := 1700000000123456;
     utcoffset := 0;
     paper_get := SampleBatch.client |}.

End SampleUnreachable.

Module SampleRepeat.

(** A batch in which one id occurs on two rows. *)
Definition batch : DataFrame :=
  {| columns := ["id"; "spr"; "stars"; "timestamp"];
     rows := [SampleBatch.summary_row "abc123"; SampleBatch.summary_row "gone";
              SampleBatch.summary_row "abc123"] |}.

Definition w : world := {| trace := []; frame := batch; store := ∅ |}.

End SampleRepeat.

Module SampleNarrow.

(** The store a run without records leaves on a fresh file. *)
Definition w : world :=
  start (store (main SampleEmpty.E (start ∅)).2).

End SampleNarrow.

(** * Properties *)

(** ** [split] on a link target *)

Section SplitFacts.

Variable sep : string.
Hypothesis sep_not_empty : sep ≠ "".

Lemma prefix_append (s : string) : String.prefix sep (sep +:+ s) = true.
Proof using Type.
  clear sep_not_empty. induction sep as [|c sep' IH]; simpl.
  - by destruct s.
  - destruct (ascii_dec c c); [exact IH | done].
Qed.

(** A text without the separator is its own single piece. *)
Lemma split_from_absent (s : string) :
  Py.contains sep s = false → Py.split_from sep 0 s = [s].
Proof using sep_not_empty.
  induction s as [|c s IH]; [done|].
  cbn [Py.contains Py.split_from]. intros H.
  apply orb_false_elim in H as [Hp Hc].
  rewrite Hp. by rewrite (IH Hc).
Qed.

(** Passing over the rest of a matched separator. *)
Lemma split_from_skip (p s : string) :
  Py.split_from sep (String.length p) (p +:+ s) = Py.split_from sep 0 s.
Proof using Type.
  clear sep_not_empty. induction p as [|c p IH]; [done|].
  simpl. exact IH.
Qed.

Lemma split_from_prefix (s : string) :
  Py.split_from sep 0 (sep +:+ s) = "" :: Py.split_from sep 0 s.
Proof using sep_not_empty.
  pose proof (prefix_append s) as Hp.
  destruct sep as [|c p] eqn:Hsep; [done|].
  change (String c p +:+ s) with (String c (p +:+ s)) in *.
  cbn [Py.split_from]. rewrite Hp. f_equal.
  cbn [String.length]. rewrite Nat.sub_1_r. cbn [Nat.pred].
  rewrite <- Hsep. rewrite split_from_skip. done.
Qed.

(** [(sep + s).split(sep)[-1]] is [s] when [s] is free of [sep]. *)
Lemma last_piece_after_prefix (s : string) :
  Py.contains sep s = false →
  Py.last_piece (Py.split (sep +:+ s) sep) = s.
Proof using sep_not_empty.
  intros H. unfold Py.split. rewrite split_from_prefix.
  by rewrite (split_from_absent _ H).
Qed.

End SplitFacts.

(** ** The extractor *)

Lemma extract_page_omap (soup : node) (records : list record) :
  extract_page soup records = records ++ omap card_record (page_cards soup).
Proof.
  unfold extract_page. generalize (page_cards soup) as cards.
  intros cards. revert records.
  induction cards as [|card cards IH]; intros records; simpl.
  - by rewrite app_nil_r.
  - rewrite IH. destruct (card_record card) as [r|]; [|done].
    by rewrite <- app_assoc.
Qed.

Lemma extractor_omap (soup : node) :
  extractor soup = omap card_record (page_cards soup).
Proof. unfold extractor. by rewrite extract_page_omap. Qed.

Lemma truthy_true (s : string) : Py.truthy s = true ↔ s ≠ "".
Proof.
  unfold Py.truthy. destruct (String.eqb_spec s ""); simpl; split; try done.
Qed.

(** A record a card yields carries the card's id, and the id is not
    empty. *)
Lemma card_record_Some (card : node) (r : record) :
  card_record card = Some r →
  ∃ id, card_paper_id card = Some id ∧ id ≠ "" ∧ record_id r = VStr id.
Proof.
  unfold card_record.
  destruct (card_paper_id card) as [id|]; [|done].
  destruct (Py.truthy id) eqn:Ht; [|done].
  intros [= <-]. exists id. split; [done|]. split; [|done].
  by apply truthy_true.
Qed.

Lemma card_record_id (card : node) (id : string) :
  card_paper_id card = Some id → id ≠ "" →
  ∃ r, card_record card = Some r ∧ record_id r = VStr id.
Proof.
  intros Hid Hne. unfold card_record. rewrite Hid.
  apply truthy_true in Hne. rewrite Hne. eexists. split; done.
Qed.

Lemma card_record_summary (card : node) (r : record) :
  card_record card = Some r → summary_record r.
Proof.
  unfold card_record.
  destruct (card_paper_id card) as [id|]; [|done].
  destruct (Py.truthy id) eqn:Ht; [|done].
  intros [= <-]. eexists _, _, _. split; [done|]. by apply truthy_true.
Qed.

Lemma extract_page_summary (soup : node) (records : list record) :
  Forall summary_record records →
  Forall summary_record (extract_page soup records).
Proof.
  intros H. rewrite extract_page_omap. apply Forall_app. split; [done|].
  apply Forall_forall. intros r Hr.
  apply list_elem_of_omap in Hr as (card & _ & Hc).
  by eapply card_record_summary.
Qed.

Lemma links_to_paper_id (card : node) (id : string) :
  links_to card id → Py.contains PAPER_PREFIX id = false →
  card_paper_id card = Some id.
Proof.
  intros [Hl _] Hc. unfold card_paper_id. rewrite Hl.
  unfold Py.startswith. rewrite prefix_append.
  by rewrite last_piece_after_prefix.
Qed.

(** The example of the specification: of two cards, the one without an
    image column is dropped. *)
Example extractor_one_of_two :
  extractor Sample.one_of_two
  = [[("id", VStr "abc123"); ("spr", VStr "12.3"); ("stars", VStr "450")]].
Proof. vm_compute. reflexivity. Qed.

(** C1, as amended: when every card the locator finds once the stripping
    step is done links, through the first link with a target below its
    image column, to /paper/<id> with <id> not empty and free of a further
    /paper/ (as every slug is), the Extractor yields one record per such
    card, in document order, and each record's id is the <id> of its
    card. *)
Theorem extractor_ids_in_document_order (soup : node) (ids : list string) :
  Forall2 (fun card id =>
             links_to card id ∧ Py.contains PAPER_PREFIX id = false)
          (page_cards soup) ids →
  length (extractor soup) = length (page_cards soup)
  ∧ map record_id (extractor soup) = map VStr ids.
Proof.
  rewrite extractor_omap.
  induction 1 as [|card id cards ids [Hl Hc] _ [IHn IHi]]; [done|].
  destruct (card_record_id card id) as (r & Hr & Hid).
  { by apply links_to_paper_id. }
  { apply Hl. }
  cbn [omap list_omap]. rewrite Hr.
  cbn [length map]. rewrite Hid.
  split; [by f_equal | by f_equal].
Qed.

Lemma extractor_ids_in_document_order_witness :
  length (extractor Sample.two_cards) = length (page_cards Sample.two_cards)
  ∧ map record_id (extractor Sample.two_cards)
    = map VStr ["abc123"; "x-1"].
Proof.
  apply (extractor_ids_in_document_order Sample.two_cards ["abc123"; "x-1"]).
  vm_compute.
  repeat (constructor; try done).
Defined.

(** C1 as stated fails: a page holds two well-formed cards, both linking
    to /paper/<id>; the one inside a header element leaves the tree with
    the stripping step, and the Extractor yields one record, not two. *)
Lemma extractor_skips_card_in_stripped_element :
  Forall2 links_to (Soup.find_all "div" CARD_CLASS Sample.card_in_header)
    ["abc123"; "x-1"]
  ∧ extractor Sample.card_in_header
    = [[("id", VStr "x-1"); ("spr", VStr "2"); ("stars", VStr "7")]]
  ∧ length (extractor Sample.card_in_header)
    ≠ length (Soup.find_all "div" CARD_CLASS Sample.card_in_header).
Proof.
  split; [|split].
  - vm_compute. repeat (constructor; try done).
  - vm_compute. reflexivity.
  - vm_compute. discriminate.
Qed.

(** The id is what follows the last /paper/ of the target: a target
    /paper/a/paper/b is /paper/<id> with <id> = a/paper/b, and the
    record's id is b. *)
Lemma extractor_id_is_last_segment :
  Forall2 links_to (page_cards Sample.nested_target) ["a/paper/b"]
  ∧ map record_id (extractor Sample.nested_target) = [VStr "b"]
  ∧ map record_id (extractor Sample.nested_target) ≠ map VStr ["a/paper/b"].
Proof.
  split; [|split].
  - vm_compute. repeat (constructor; try done).
  - vm_compute. reflexivity.
  - vm_compute. discriminate.
Qed.

(** A link target that is just the prefix gives an empty id, and the
    card is dropped. *)
Example extractor_empty_id :
  extractor (Sample.document [Sample.card "/paper/" "1" "2"]) = [].
Proof. vm_compute. reflexivity. Qed.

(** ** The stripping step *)

Section NodeInduction.

Variable P : node → Prop.
Hypothesis P_text : ∀ s, P (Text s).
Hypothesis P_elem : ∀ nm cs a ks, Forall P ks → P (Elem nm cs a ks).

(** Induction on the markup tree, with the property available for all
    the children of an element. *)
Fixpoint node_tree_ind (n : node) : P n :=
  match n with
  | Text s => P_text s
  | Elem nm cs a ks =>
      P_elem nm cs a ks
        ((fix children (l : list node) : Forall P l :=
            match l with
            | [] => Forall_nil_2 P
            | k :: l' => Forall_cons_2 P k l' (node_tree_ind k) (children l')
            end) ks)
  end.

End NodeInduction.

Lemma named_in_decompose_all (names : list string) (n : node) :
  Soup.named_in names (Soup.decompose_all names n) = Soup.named_in names n.
Proof. by destruct n. Qed.

(** Once the unwanted elements are decomposed, none of them is left
    anywhere below the root. *)
Lemma decompose_all_clean (names : list string) (n : node) :
  Forall (fun d => Soup.named_in names d = false)
    (Soup.descendants (Soup.decompose_all names n)).
Proof.
  induction n as [s|nm cs a ks IH] using node_tree_ind; [constructor|].
  cbn [Soup.decompose_all Soup.descendants].
  induction IH as [|k ks Hk _ IHks]; [constructor|].
  cbn [flat_map]. destruct (Soup.named_in names k) eqn:Hname.
  - exact IHks.
  - cbn [app flat_map]. constructor.
    + by rewrite named_in_decompose_all.
    + apply Forall_app. split; [exact Hk | exact IHks].
Qed.

(** ** The monad: sequencing and footprints *)

Lemma bind_Ok {A B : Type} (m : M A) (k : A → M B) (w w' : world) (a : A) :
  m w = (Ok a, w') → (m ≫= k) w = k a w'.
Proof. intros H. unfold mbind, M_bind. by rewrite H. Qed.

Create HintDb footprint.

Lemma emits_ret {A : Type} (P : event → Prop) (a : A) : emits P (mret a : M A).
Proof. intros w. exists []. by rewrite app_nil_r. Qed.

Lemma emits_raise {A : Type} (P : event → Prop) (e : exn) : emits P (raise e : M A).
Proof. intros w. exists []. by rewrite app_nil_r. Qed.

Lemma emits_bind {A B : Type} (P : event → Prop) (m : M A) (k : A → M B) :
  emits P m → (∀ a, emits P (k a)) → emits P (m ≫= k).
Proof.
  intros Hm Hk w. destruct (Hm w) as (evs & Ht & Hp).
  unfold mbind, M_bind. destruct (m w) as [[a|e] w1]; simpl in *.
  - destruct (Hk a w1) as (evs' & Ht' & Hp').
    exists (evs ++ evs'). rewrite Ht', Ht, app_assoc. split; [done|].
    by apply Forall_app.
  - by exists evs.
Qed.

Lemma emits_try {A : Type} (P : event → Prop) (body : M A) (handler : exn → M A) :
  emits P body → (∀ e, emits P (handler e)) →
  emits P (try_except body handler).
Proof.
  intros Hm Hk w. destruct (Hm w) as (evs & Ht & Hp).
  unfold try_except. destruct (body w) as [[a|e] w1]; simpl in *.
  - by exists evs.
  - destruct (Hk e w1) as (evs' & Ht' & Hp').
    exists (evs ++ evs'). rewrite Ht', Ht, app_assoc. split; [done|].
    by apply Forall_app.
Qed.

Lemma emits_for_each {A : Type} (P : event → Prop) (f : A → M unit) (l : list A) :
  (∀ x, emits P (f x)) → emits P (for_each f l).
Proof.
  intros Hf. induction l as [|x l IH]; simpl.
  - apply emits_ret.
  - apply emits_bind; [apply Hf | intros _; apply IH].
Qed.

Lemma emits_emit (P : event → Prop) (ev : event) : P ev → emits P (emit ev).
Proof. intros H w. exists [ev]. split; [done|]. by constructor. Qed.

Lemma emits_silent {A : Type} (P : event → Prop) (m : M A) :
  (∀ w, trace (m w).2 = trace w) → emits P m.
Proof. intros H w. exists []. by rewrite app_nil_r. Qed.

#[global] Hint Resolve emits_ret emits_raise emits_bind emits_try
  emits_for_each emits_emit : footprint.

(** ** The page loop *)

Section PageLoop.

Variable E : env.

Lemma scrape_pages_cons (page : nat) (rest : list nat)
    (records : list record) (w : world) :
  scrape_pages E (page :: rest) records w =
  match http_get E (page_url page) with
  | inl e => (Raise e, log (EvRequest (page_url page)) w)
  | inr r =>
      if error_status (status_code r)
      then (Raise (mkExn "HTTPError" (pretty (status_code r))),
            log (EvRequest (page_url page)) w)
      else scrape_pages E rest (extract_page (body r) records)
             (log (EvSleep 1) (log (EvRequest (page_url page)) w))
  end.
Proof.
  cbn [scrape_pages]. unfold mbind, M_bind, requests_get, raise_for_status.
  destruct (http_get E (page_url page)) as [e|r]; [done|].
  destruct (error_status (status_code r)); done.
Qed.

(** A loop that goes through has visited every page, in order, and has
    touched neither the frame nor the store; its records extend the ones
    it started from by what each page yields. *)
Lemma scrape_pages_Ok (pages : list nat) (records recs : list record)
    (w w' : world) :
  scrape_pages E pages records w = (Ok recs, w') →
  trace w' = trace w ++ flat_map visit pages
  ∧ frame w' = frame w ∧ store w' = store w
  ∧ Forall (fun page => ¬ fetch_fails E page) pages
  ∧ (Forall summary_record records → Forall summary_record recs).
Proof.
  revert records w. induction pages as [|page rest IH]; intros records w.
  - intros [= <- <-]. by rewrite app_nil_r.
  - rewrite scrape_pages_cons. unfold fetch_fails at 1.
    destruct (http_get E (page_url page)) as [e|r] eqn:Hget; [done|].
    destruct (error_status (status_code r)) eqn:Hst; [done|].
    intros H. apply IH in H as (Ht & Hf & Hs & Hok & Hrec).
    split; [|split; [done|split; [done|split]]].
    + rewrite Ht. cbn. by rewrite <- !app_assoc.
    + constructor; [|done]. unfold fetch_fails. rewrite Hget, Hst. done.
    + intros Hr. apply Hrec. by apply extract_page_summary.
Qed.

(** A loop that raises has stopped at the first page whose fetch fails:
    the pages before it were visited, its own request is the last event,
    and neither the frame nor the store has changed. *)
Lemma scrape_pages_Raise (pages : list nat) (records : list record)
    (w w' : world) (e : exn) :
  scrape_pages E pages records w = (Raise e, w') →
  ∃ before page after,
    pages = before ++ page :: after
    ∧ Forall (fun p => ¬ fetch_fails E p) before
    ∧ fetch_fails E page
    ∧ trace w' = trace w ++ flat_map visit before ++ [EvRequest (page_url page)]
    ∧ frame w' = frame w ∧ store w' = store w.
Proof.
  revert records w. induction pages as [|page rest IH]; intros records w.
  - done.
  - rewrite scrape_pages_cons.
    destruct (http_get E (page_url page)) as [e'|r] eqn:Hget.
    { intros [= <- <-]. exists [], page, rest.
      unfold fetch_fails. rewrite Hget. by repeat split. }
    destruct (error_status (status_code r)) eqn:Hst.
    { intros [= <- <-]. exists [], page, rest.
      unfold fetch_fails. rewrite Hget. by repeat split. }
    intros H. apply IH in H as (before & q & after & -> & Hb & Hq & Ht & Hf & Hs).
    exists (page :: before), q, after. repeat split; try done.
    + constructor; [|done]. unfold fetch_fails. rewrite Hget, Hst. done.
    + rewrite Ht. cbn. by rewrite <- !app_assoc.
Qed.

(** The loop raises as soon as one of its pages fails. *)
Lemma scrape_pages_fails (pages : list nat) (records : list record)
    (w : world) (page : nat) :
  page ∈ pages → fetch_fails E page →
  ∃ e w', scrape_pages E pages records w = (Raise e, w').
Proof.
  intros Hin Hfail.
  destruct (scrape_pages E pages records w) as [[recs|e] w'] eqn:Hrun.
  - apply scrape_pages_Ok in Hrun as (_ & _ & _ & Hok & _).
    rewrite Forall_forall in Hok. by destruct (Hok page Hin).
  - by exists e, w'.
Qed.

End PageLoop.

(** ** The enrichment step *)

Section Enrichment.

Variable E : env.

Lemma init_metadata_cols (w : world) :
  for_each (fun col => modify_frame (Pd.setitem col VNone)) metadata_cols w
  = (Ok tt,
     {| trace := trace w;
        frame := {| columns := fold_left Pd.add_label metadata_cols
                                 (columns (frame w));
                    rows := map blank_metadata (rows (frame w)) |};
        store := store w |}).
Proof.
  cbn [for_each metadata_cols]. unfold mbind, M_bind, modify_frame, Pd.setitem.
  cbn. do 3 f_equal. rewrite !map_map. done.
Qed.

Lemma merge_writes (idx : nat) (p : Paper) (w : world) :
  for_each
    (fun col =>
       modify_frame
         (Pd.at_set idx col
            (dict_get [("title", title p); ("arxiv_id", arxiv_id p);
                       ("url_pdf", url_pdf p); ("abstract", abstract p);
                       ("published", published p)] col)))
    metadata_cols w
  = (Ok tt,
     {| trace := trace w;
        frame := {| columns := columns (frame w);
                    rows := alter (merge_paper p) idx (rows (frame w)) |};
        store := store w |}).
Proof.
  cbn [for_each metadata_cols]. unfold mbind, M_bind, modify_frame, Pd.at_set.
  cbn. do 3 f_equal. rewrite !list_alter_alter_eq. done.
Qed.

(** One turn of the loop never raises once the row has an id: a failed
    lookup is caught, reported, and leaves the frame as it was; a lookup
    that succeeds writes the five fields of its answer to row [idx]. *)
Lemma enrich_row_run (idx : nat) (r : gmap string value) (paper_id : value)
    (w : world) :
  r !! "id" = Some paper_id →
  ∃ w', enrich_row E (idx, r) w = (Ok tt, w')
    ∧ columns (frame w') = columns (frame w)
    ∧ rows (frame w')
      = alter (apply_lookup (paper_get E idx paper_id)) idx (rows (frame w))
    ∧ store w' = store w.
Proof.
  intros Hid. unfold enrich_row, getitem. cbn [fst snd]. rewrite Hid.
  unfold mbind at 1, M_bind at 1. cbn [mret M_ret].
  unfold try_except, get_paper_metadata, client_paper_get.
  unfold mbind at 1, M_bind at 1. unfold mbind at 1, M_bind at 1.
  destruct (paper_get E idx paper_id) as [e|p]; cbn [apply_lookup].
  - eexists. split; [reflexivity|]. cbn.
    rewrite list_alter_id; done.
  - unfold mret, M_ret. rewrite merge_writes.
    eexists. split; [reflexivity|]. done.
Qed.

Lemma enrich_rows_from (suffix done_rows : list (gmap string value))
    (w : world) :
  rows (frame w) = done_rows ++ suffix →
  Forall has_id suffix →
  ∃ w',
    for_each (enrich_row E)
      (imap (fun i r => (length done_rows + i, r)) suffix) w = (Ok tt, w')
    ∧ columns (frame w') = columns (frame w)
    ∧ rows (frame w')
      = done_rows
        ++ imap (fun i r => enriched_row E (length done_rows + i) r) suffix
    ∧ store w' = store w.
Proof.
  revert done_rows w.
  induction suffix as [|r suffix IH]; intros done_rows w Hrows Hids.
  - exists w. by rewrite Hrows.
  - apply Forall_cons in Hids as [[paper_id Hid] Hids].
    rewrite !imap_cons. cbn [for_each].
    destruct (enrich_row_run (length done_rows + 0) r paper_id w Hid)
      as (w1 & Hrun & Hcols & Hr1 & Hst).
    rewrite (bind_Ok _ _ _ _ _ Hrun).
    rewrite Hrows, alter_app_r_alt in Hr1 by lia.
    replace (length done_rows + 0 - length done_rows) with 0 in Hr1 by lia.
    cbn [alter list_alter] in Hr1.
    destruct (IH (done_rows ++ [apply_lookup (paper_get E (length done_rows + 0)
                                                paper_id) r]) w1)
      as (w2 & Hrun2 & Hcols2 & Hr2 & Hst2).
    { by rewrite Hr1, <- app_assoc. }
    { done. }
    exists w2. split; [|split; [congruence|split; [|congruence]]].
    + rewrite <- Hrun2. f_equal. apply imap_ext. intros i x _.
      cbn. rewrite length_app. cbn. f_equal. lia.
    + rewrite Hr2, <- app_assoc. cbn. f_equal. f_equal.
      * unfold enriched_row. by rewrite Hid.
      * apply imap_ext. intros i x _. cbn. rewrite length_app. cbn.
        f_equal. lia.
Qed.

End Enrichment.

(** *** Reading the fields of a row *)

Ltac split_cols H :=
  unfold metadata_cols in H;
  repeat (apply not_elem_of_cons in H as [? H]).

Lemma blank_metadata_other (r : gmap string value) (col : string) :
  col ∉ metadata_cols → blank_metadata r !! col = r !! col.
Proof.
  intros H. split_cols H. unfold blank_metadata.
  by rewrite !lookup_insert_ne.
Qed.

Lemma merge_paper_other (p : Paper) (r : gmap string value) (col : string) :
  col ∉ metadata_cols → merge_paper p r !! col = r !! col.
Proof.
  intros H. split_cols H. unfold merge_paper.
  by rewrite !lookup_insert_ne.
Qed.

Lemma apply_lookup_other (res : exn + Paper) (r : gmap string value)
    (col : string) :
  col ∉ metadata_cols → apply_lookup res r !! col = r !! col.
Proof.
  intros H. destruct res; [done|]. by apply merge_paper_other.
Qed.

Lemma metadata_of_blank (r : gmap string value) :
  metadata_of (blank_metadata r) = sentinel_fields.
Proof.
  unfold metadata_of, blank_metadata, sentinel_fields. cbn [map metadata_cols].
  by simplify_map_eq.
Qed.

Lemma metadata_of_merge (p : Paper) (r : gmap string value) :
  metadata_of (merge_paper p r) = paper_fields p.
Proof.
  unfold metadata_of, merge_paper, paper_fields. cbn [map metadata_cols].
  by simplify_map_eq.
Qed.

Lemma id_not_metadata : "id" ∉ metadata_cols.
Proof. apply (bool_decide_unpack _). by vm_compute. Qed.

Lemma has_id_blank (r : gmap string value) : has_id r → has_id (blank_metadata r).
Proof.
  unfold has_id. by rewrite blank_metadata_other by apply id_not_metadata.
Qed.

Lemma add_label_not_nil (cols : list string) (c : string) :
  Pd.add_label cols c ≠ [].
Proof.
  unfold Pd.add_label. case_bool_decide as H.
  - intros ->. by apply not_elem_of_nil in H.
  - by destruct cols.
Qed.

Section EnrichmentStep.

Variable E : env.

(** The enrichment step on a frame whose rows all have an id: it goes
    through, every row is the row it was with blank metadata and the
    outcome of its own lookup applied, and the store is as before. *)
Lemma enrich_run (w : world) :
  Forall has_id (rows (frame w)) →
  ∃ w', enrich E w = (Ok tt, w')
    ∧ columns (frame w')
      = fold_left Pd.add_label metadata_cols (columns (frame w))
    ∧ rows (frame w')
      = imap (fun i r => enriched_row E i (blank_metadata r)) (rows (frame w))
    ∧ store w' = store w.
Proof.
  intros Hids. unfold enrich.
  rewrite (bind_Ok _ _ _ _ _ (init_metadata_cols w)).
  unfold get_frame. unfold mbind at 1, M_bind at 1. cbn [frame].
  set (w1 := {| trace := trace w; frame := _; store := store w |}).
  destruct (Pd.empty _) eqn:Hempty; cbn [negb].
  - exists w1. split; [done|]. split; [done|]. split; [|done].
    unfold Pd.empty in Hempty. cbn [columns rows] in Hempty.
    destruct (fold_left _ _ _) as [|c cols] eqn:Hcols.
    { cbn in Hcols. by apply add_label_not_nil in Hcols. }
    subst w1. cbn [frame rows].
    destruct (rows (frame w)) as [|r rs]; [done|done].
  - destruct (enrich_rows_from E (rows (frame w1)) [] w1) as
      (w2 & Hrun & Hcols & Hrows & Hst); [done| |].
    { subst w1. cbn [frame rows]. apply Forall_fmap.
      eapply Forall_impl; [exact Hids|]. intros r. apply has_id_blank. }
    exists w2. split; [exact Hrun|]. split; [done|]. split; [|done].
    rewrite Hrows. subst w1. cbn [frame rows app length].
    change (map blank_metadata (rows (frame w)))
      with (blank_metadata <$> rows (frame w)).
    rewrite imap_fmap. done.
Qed.

End EnrichmentStep.

(** What the step makes of one row. *)
Lemma enriched_row_fields (E : env) (i : nat) (r : gmap string value) :
  has_id r →
  (∀ col, col ∉ metadata_cols →
     enriched_row E i (blank_metadata r) !! col = r !! col)
  ∧ ∃ paper_id,
      r !! "id" = Some paper_id
      ∧ match paper_get E i paper_id with
        | inr p =>
            metadata_of (enriched_row E i (blank_metadata r)) = paper_fields p
        | inl _ =>
            metadata_of (enriched_row E i (blank_metadata r)) = sentinel_fields
        end.
Proof.
  intros [paper_id Hid]. unfold enriched_row.
  rewrite (blank_metadata_other r "id" id_not_metadata), Hid.
  split.
  - intros col Hcol.
    by rewrite apply_lookup_other, blank_metadata_other.
  - exists paper_id. split; [done|].
    destruct (paper_get E i paper_id) as [e|p]; cbn [apply_lookup].
    + apply metadata_of_blank.
    + apply metadata_of_merge.
Qed.

Lemma spr_not_metadata : "spr" ∉ metadata_cols.
Proof. apply (bool_decide_unpack _). by vm_compute. Qed.

Lemma stars_not_metadata : "stars" ∉ metadata_cols.
Proof. apply (bool_decide_unpack _). by vm_compute. Qed.

Lemma timestamp_not_metadata : "timestamp" ∉ metadata_cols.
Proof. apply (bool_decide_unpack _). by vm_compute. Qed.

Lemma sample_batch_has_ids : Forall has_id (rows (frame SampleBatch.w)).
Proof. repeat constructor; by eexists. Qed.

(** C2: when the lookup raises for the record at [i] (id [x]) and succeeds
    for the record at [j] (id [y]), the enrichment step still goes
    through, the frame keeps all its records, the one at [i] has its five
    metadata fields at the sentinel and the one at [j] has them from the
    client's answer. *)
Theorem enrichment_failure_is_isolated (E : env) (w : world) (i j : nat)
    (rx ry : gmap string value) (x y : value) (e : exn) (p : Paper) :
  Forall has_id (rows (frame w)) →
  rows (frame w) !! i = Some rx → rx !! "id" = Some x →
  paper_get E i x = inl e →
  rows (frame w) !! j = Some ry → ry !! "id" = Some y →
  paper_get E j y = inr p →
  ∃ w' rx' ry',
    enrich E w = (Ok tt, w')
    ∧ length (rows (frame w')) = length (rows (frame w))
    ∧ rows (frame w') !! i = Some rx'
    ∧ rx' !! "id" = Some x ∧ metadata_of rx' = sentinel_fields
    ∧ rows (frame w') !! j = Some ry'
    ∧ ry' !! "id" = Some y ∧ metadata_of ry' = paper_fields p.
Proof.
  intros Hids Hi Hx Hfail Hj Hy Hok.
  destruct (enrich_run E w Hids) as (w' & Hrun & _ & Hrows & _).
  exists w', (enriched_row E i (blank_metadata rx)),
    (enriched_row E j (blank_metadata ry)).
  split; [done|]. rewrite Hrows, length_imap, !list_lookup_imap, Hi, Hj.
  split; [done|].
  destruct (enriched_row_fields E i rx) as (Hkeep & x' & Hx' & Hmeta);
    [by exists x|].
  destruct (enriched_row_fields E j ry) as (Hkeep' & y' & Hy' & Hmeta');
    [by exists y|].
  assert (x' = x) as -> by congruence.
  assert (y' = y) as -> by congruence.
  rewrite Hfail in Hmeta. rewrite Hok in Hmeta'.
  rewrite (Hkeep "id" id_not_metadata), (Hkeep' "id" id_not_metadata).
  done.
Qed.

Lemma enrichment_failure_is_isolated_witness :
  ∃ w' rx' ry',
    enrich SampleBatch.E SampleBatch.w = (Ok tt, w')
    ∧ length (rows (frame w')) = length (rows (frame SampleBatch.w))
    ∧ rows (frame w') !! 0 = Some rx'
    ∧ rx' !! "id" = Some (VStr "gone") ∧ metadata_of rx' = sentinel_fields
    ∧ rows (frame w') !! 1 = Some ry'
    ∧ ry' !! "id" = Some (VStr "abc123")
    ∧ metadata_of ry' = paper_fields SampleBatch.paper.
Proof.
  apply (enrichment_failure_is_isolated SampleBatch.E SampleBatch.w 0 1
           (SampleBatch.summary_row "gone") (SampleBatch.summary_row "abc123")
           (VStr "gone") (VStr "abc123")
           (mkExn "HTTPError" "404 Not Found") SampleBatch.paper).
  - exact sample_batch_has_ids.
  - reflexivity.
  - reflexivity.
  - reflexivity.
  - reflexivity.
  - reflexivity.
  - reflexivity.
Defined.

(** C6: after the enrichment step every record has its five metadata
    fields either all from the one answer its own lookup returned, or all
    at the sentinel, the latter exactly when that lookup raised. *)
Theorem enrichment_all_or_nothing (E : env) (w : world) :
  Forall has_id (rows (frame w)) →
  ∃ w', enrich E w = (Ok tt, w')
    ∧ ∀ i r', rows (frame w') !! i = Some r' →
        ∃ paper_id,
          r' !! "id" = Some paper_id
          ∧ match paper_get E i paper_id with
            | inr p => metadata_of r' = paper_fields p
            | inl _ => metadata_of r' = sentinel_fields
            end.
Proof.
  intros Hids.
  destruct (enrich_run E w Hids) as (w' & Hrun & _ & Hrows & _).
  exists w'. split; [done|]. intros i r'.
  rewrite Hrows, list_lookup_imap.
  destruct (rows (frame w) !! i) as [r|] eqn:Hr; [|done].
  intros [= <-].
  assert (has_id r) as Hid.
  { rewrite Forall_forall in Hids. apply Hids.
    by eapply list_elem_of_lookup_2. }
  destruct (enriched_row_fields E i r Hid) as (Hkeep & paper_id & Hp & Hmeta).
  exists paper_id. by rewrite (Hkeep "id" id_not_metadata).
Qed.

Lemma enrichment_all_or_nothing_witness :
  ∃ w', enrich SampleBatch.E SampleBatch.w = (Ok tt, w')
    ∧ ∀ i r', rows (frame w') !! i = Some r' →
        ∃ paper_id,
          r' !! "id" = Some paper_id
          ∧ match paper_get SampleBatch.E i paper_id with
            | inr p => metadata_of r' = paper_fields p
            | inl _ => metadata_of r' = sentinel_fields
            end.
Proof.
  apply (enrichment_all_or_nothing SampleBatch.E SampleBatch.w).
  exact sample_batch_has_ids.
Defined.

(** C9: the enrichment step keeps every record and changes none of its
    fields outside the five metadata columns: id, spr, stars and timestamp
    are what they were, whatever the lookups return. *)
Theorem enrichment_keeps_summary_fields (E : env) (w : world) :
  Forall has_id (rows (frame w)) →
  ∃ w', enrich E w = (Ok tt, w')
    ∧ length (rows (frame w')) = length (rows (frame w))
    ∧ ∀ i r, rows (frame w) !! i = Some r →
        ∃ r', rows (frame w') !! i = Some r'
          ∧ r' !! "id" = r !! "id"
          ∧ r' !! "spr" = r !! "spr"
          ∧ r' !! "stars" = r !! "stars"
          ∧ r' !! "timestamp" = r !! "timestamp"
          ∧ ∀ col, col ∉ metadata_cols → r' !! col = r !! col.
Proof.
  intros Hids.
  destruct (enrich_run E w Hids) as (w' & Hrun & _ & Hrows & _).
  exists w'. split; [done|]. rewrite Hrows, length_imap. split; [done|].
  intros i r Hr. rewrite list_lookup_imap, Hr. eexists. split; [done|].
  assert (has_id r) as Hid.
  { rewrite Forall_forall in Hids. apply Hids.
    by eapply list_elem_of_lookup_2. }
  destruct (enriched_row_fields E i r Hid) as (Hkeep & _).
  split; [apply Hkeep, id_not_metadata|].
  split; [apply Hkeep, spr_not_metadata|].
  split; [apply Hkeep, stars_not_metadata|].
  split; [apply Hkeep, timestamp_not_metadata|].
  exact Hkeep.
Qed.

Lemma enrichment_keeps_summary_fields_witness :
  ∃ w', enrich SampleBatch.E SampleBatch.w = (Ok tt, w')
    ∧ length (rows (frame w')) = length (rows (frame SampleBatch.w))
    ∧ ∀ i r, rows (frame SampleBatch.w) !! i = Some r →
        ∃ r', rows (frame w') !! i = Some r'
          ∧ r' !! "id" = r !! "id"
          ∧ r' !! "spr" = r !! "spr"
          ∧ r' !! "stars" = r !! "stars"
          ∧ r' !! "timestamp" = r !! "timestamp"
          ∧ ∀ col, col ∉ metadata_cols → r' !! col = r !! col.
Proof.
  apply (enrichment_keeps_summary_fields SampleBatch.E SampleBatch.w).
  exact sample_batch_has_ids.
Defined.

(** ** The run as a whole *)

Section Run.

Variable E : env.

Lemma get_current_trending_run (pages : nat) (w : world) :
  get_current_trending E pages w =
  match scrape_pages E (seq 1 pages) [] w with
  | (Ok records, w1) => (Ok (batch_of E records), log EvClock w1)
  | (Raise e, w1) => (Raise e, w1)
  end.
Proof.
  unfold get_current_trending, mbind, M_bind.
  destruct (scrape_pages E (seq 1 pages) [] w) as [[records|e] w1]; done.
Qed.

Lemma main_run (w : world) :
  main E w =
  match scrape_pages E (seq 1 PAGES_TO_SCRAPE) [] w with
  | (Ok records, w1) => finish E (batch_of E records) (log EvClock w1)
  | (Raise e, w1) => (Raise e, w1)
  end.
Proof.
  unfold main. unfold mbind at 1, M_bind at 1.
  rewrite get_current_trending_run.
  destruct (scrape_pages E (seq 1 PAGES_TO_SCRAPE) [] w) as [[records|e] w1];
    done.
Qed.

Lemma emits_put_frame (P : event → Prop) (df : DataFrame) :
  emits P (put_frame df).
Proof. by apply emits_silent. Qed.

Lemma emits_get_frame (P : event → Prop) : emits P get_frame.
Proof. by apply emits_silent. Qed.

Lemma emits_modify_frame (P : event → Prop) (f : DataFrame → DataFrame) :
  emits P (modify_frame f).
Proof. by apply emits_silent. Qed.

Lemma emits_getitem (P : event → Prop) (r : gmap string value) (key : string) :
  emits P (getitem r key).
Proof. unfold getitem. destruct (r !! key); auto with footprint. Qed.

Lemma emits_client_paper_get (P : event → Prop) (idx : nat) (paper_id : value) :
  P (EvLookup paper_id) → emits P (client_paper_get E idx paper_id).
Proof.
  intros H w. exists [EvLookup paper_id]. unfold client_paper_get.
  split; [by destruct (paper_get E idx paper_id)|]. by constructor.
Qed.

Lemma emits_save_to_sqlite (P : event → Prop) (df : DataFrame)
    (db_path table_name : string) :
  P (EvToSql db_path table_name (Pd.len df)) →
  emits P (save_to_sqlite df db_path table_name).
Proof.
  intros H w. exists [EvToSql db_path table_name (Pd.len df)].
  unfold save_to_sqlite. split; [|by constructor].
  by destruct (Sql.to_sql_append _ _).
Qed.

Lemma emits_print (P : event → Prop) (line : string) :
  P (EvPrint line) → emits P (print line).
Proof. apply emits_emit. Qed.

Hint Resolve emits_put_frame emits_get_frame emits_modify_frame
  emits_getitem emits_client_paper_get emits_save_to_sqlite emits_print
  : footprint.

(** The enrichment step only looks papers up and prints. *)
Lemma emits_enrich (P : event → Prop) :
  (∀ paper_id, P (EvLookup paper_id)) → (∀ line, P (EvPrint line)) →
  emits P (enrich E).
Proof.
  intros Hl Hp. unfold enrich.
  apply emits_bind; [auto with footprint|]. intros _.
  apply emits_bind; [auto with footprint|]. intros df.
  destruct (negb (Pd.empty df)); [|auto with footprint].
  apply emits_for_each. intros [idx r]. unfold enrich_row.
  apply emits_bind; [auto with footprint|]. intros paper_id.
  apply emits_try; [|auto with footprint].
  apply emits_bind.
  - unfold get_paper_metadata. auto with footprint.
  - intros d. auto with footprint.
Qed.

(** Nothing after the page loop sends a request. *)
Lemma emits_finish (df : DataFrame) : emits no_request (finish E df).
Proof.
  unfold finish.
  apply emits_bind; [auto with footprint|]. intros _.
  apply emits_bind; [by apply emits_enrich|]. intros _.
  apply emits_bind; [auto with footprint|]. intros df'.
  apply emits_bind; [by apply emits_save_to_sqlite|]. intros _.
  by apply emits_print.
Qed.

End Run.

(** ** The politeness delay *)

Lemma request_times_quiet (dur : event → nat) (now : nat) (evs : list event) :
  Forall no_request evs → request_times dur now evs = [].
Proof.
  intros H. revert now. induction H as [|ev evs Hev _ IH]; intros now; [done|].
  cbn. rewrite Hev. apply IH.
Qed.

Lemma request_times_lower (dur : event → nat) (evs : list event) (now t : nat) :
  t ∈ request_times dur now evs → now ≤ t.
Proof.
  revert now. induction evs as [|ev evs IH]; intros now; cbn.
  - intros H. by apply elem_of_nil in H.
  - intros H. apply elem_of_app in H as [H|H].
    + destruct (is_request ev); [|by apply elem_of_nil in H].
      apply list_elem_of_singleton in H. lia.
    + apply IH in H. lia.
Qed.

Lemma polite_spaced (dur : event → nat) (evs : list event) :
  (∀ secs, secs ≤ dur (EvSleep secs)) →
  polite evs → ∀ now, spaced 1 (request_times dur now evs).
Proof.
  intros Hsleep. induction 1 as [evs Hq|url evs Hq|url evs _ IH]; intros now.
  - rewrite request_times_quiet by done. intros i t t' Hi. done.
  - cbn. rewrite request_times_quiet by done.
    intros [|i] t t' Hi Hi'; done.
  - cbn [request_times is_request app].
    intros [|i] t t' Hi Hi'.
    + cbn in Hi. injection Hi as <-.
      assert (t' ∈ request_times dur
                     (now + dur (EvRequest url) + dur (EvSleep 1)) evs) as Hin.
      { by eapply list_elem_of_lookup_2. }
      apply request_times_lower in Hin.
      specialize (Hsleep 1). lia.
    + by eapply IH.
Qed.

Lemma polite_visits (pages : list nat) (evs : list event) :
  polite evs → polite (flat_map visit pages ++ evs).
Proof.
  intros H. induction pages as [|page pages IH]; [done|].
  cbn. by apply polite_visit.
Qed.

(** The events of a whole run form a polite trace. *)
Lemma main_polite (E : env) (w : world) :
  ∃ evs, trace (main E w).2 = trace w ++ evs ∧ polite evs.
Proof.
  rewrite main_run.
  destruct (scrape_pages E (seq 1 PAGES_TO_SCRAPE) [] w)
    as [[records|e] w1] eqn:Hloop.
  - apply scrape_pages_Ok in Hloop as (Ht & _).
    destruct (emits_finish E (batch_of E records) (log EvClock w1))
      as (evs & Hevs & Hq).
    exists (flat_map visit (seq 1 PAGES_TO_SCRAPE) ++ EvClock :: evs).
    split.
    + rewrite Hevs. cbn [log trace]. rewrite Ht, <- !app_assoc. done.
    + apply polite_visits, polite_quiet. by constructor.
  - apply scrape_pages_Raise in Hloop
      as (before & page & after & _ & _ & _ & Ht & _).
    exists (flat_map visit before ++ [EvRequest (page_url page)]).
    split; [done|]. apply polite_visits, polite_last. constructor.
Qed.

(** C8: on any clock on which [sleep(secs)] lasts at least [secs] units,
    two consecutive page requests of a run are sent at least 1 unit
    apart. *)
Theorem requests_are_spaced (E : env) (st : gmap (string * string) Table)
    (dur : event → nat) :
  (∀ secs, secs ≤ dur (EvSleep secs)) →
  spaced 1 (request_times dur 0 (trace (main E (start st)).2)).
Proof.
  intros Hsleep.
  destruct (main_polite E (start st)) as (evs & -> & Hpolite).
  cbn [start trace app]. by apply polite_spaced.
Qed.

Lemma requests_are_spaced_witness :
  spaced 1 (request_times SampleRun.dur 0
              (trace (main SampleRun.E (start ∅)).2)).
Proof.
  apply (requests_are_spaced SampleRun.E ∅ SampleRun.dur).
  intros secs. simpl. lia.
Defined.

(** The request instants of the sample run, one second per effect. *)
Example sample_request_times :
  request_times SampleRun.dur 0 (trace (main SampleRun.E (start ∅)).2)
  = [0; 2; 4; 6; 8; 10; 12; 14; 16; 18].
Proof. vm_compute. reflexivity. Qed.

(** ** A failed fetch *)

Lemma main_Raise (E : env) (w w' : world) (e : exn) :
  scrape_pages E (seq 1 PAGES_TO_SCRAPE) [] w = (Raise e, w') →
  main E w = (Raise e, w').
Proof. intros H. by rewrite main_run, H. Qed.

(** C3, as amended: when the request for one of the pages is answered
    with a 4xx or 5xx status, the run raises at the first page whose fetch
    fails: the pages before it were visited, the request of that page is
    the last thing the run does, and the store is what it was. *)
Theorem error_status_aborts_before_persisting (E : env) (w : world)
    (page : nat) (r : response) :
  1 ≤ page ≤ PAGES_TO_SCRAPE →
  http_get E (page_url page) = inr r →
  error_status (status_code r) = true →
  ∃ e w' before first after,
    main E w = (Raise e, w')
    ∧ seq 1 PAGES_TO_SCRAPE = before ++ first :: after
    ∧ Forall (fun p => ¬ fetch_fails E p) before
    ∧ fetch_fails E first
    ∧ trace w' = trace w ++ flat_map visit before
                 ++ [EvRequest (page_url first)]
    ∧ store w' = store w.
Proof.
  intros Hpage Hget Hstatus.
  destruct (scrape_pages_fails E (seq 1 PAGES_TO_SCRAPE) [] w page)
    as (e & w' & Hloop).
  { apply elem_of_seq. lia. }
  { unfold fetch_fails. by rewrite Hget. }
  pose proof (main_Raise E w w' e Hloop) as Hmain.
  apply scrape_pages_Raise in Hloop
    as (before & first & after & Hsplit & Hbefore & Hfirst & Ht & _ & Hs).
  by exists e, w', before, first, after.
Qed.

Lemma error_status_aborts_before_persisting_witness :
  ∃ e w' before first after,
    main SampleOutage.E (start ∅) = (Raise e, w')
    ∧ seq 1 PAGES_TO_SCRAPE = before ++ first :: after
    ∧ Forall (fun p => ¬ fetch_fails SampleOutage.E p) before
    ∧ fetch_fails SampleOutage.E first
    ∧ trace w' = trace (start ∅) ++ flat_map visit before
                 ++ [EvRequest (page_url first)]
    ∧ store w' = store (start ∅).
Proof.
  apply (error_status_aborts_before_persisting SampleOutage.E (start ∅) 3
           (mkResponse 503 (Sample.document []))).
  - unfold PAGES_TO_SCRAPE. lia.
  - reflexivity.
  - reflexivity.
Defined.

(** C3 as stated fails: 304 is not a success status, yet the run that
    meets it on page 1 goes on, and ends with two rows in the table. *)
Lemma non_success_status_does_not_abort :
  (∃ r, http_get SampleNotModified.E (page_url 1) = inr r
        ∧ success_status (status_code r) = false)
  ∧ (main SampleNotModified.E (start ∅)).1 = Ok tt
  ∧ length (table_rows (main SampleNotModified.E (start ∅)).2) = 2.
Proof.
  split; [|split].
  - eexists. split; reflexivity.
  - vm_compute. reflexivity.
  - vm_compute. reflexivity.
Qed.

(** ** Persisting *)

Lemma to_sql_append_rows (df : DataFrame) (t : option Table) (tb : Table) :
  Sql.to_sql_append df t = inr tb →
  t_rows tb = from_option t_rows [] t ++ rows df
  ∧ t_columns tb = from_option t_columns (columns df) t.
Proof.
  unfold Sql.to_sql_append. destruct t as [t0|]; cbn.
  - destruct (rows df) as [|r rs] eqn:Hrows.
    + intros [= <-]. by rewrite app_nil_r.
    + destruct (list_find _ _) as [[? ?]|]; [done|]. by intros [= <-].
  - destruct (columns df); [done|]. by intros [= <-].
Qed.

Lemma to_sql_append_accepts (df : DataFrame) (t : option Table) :
  accepts t df ↔ ∃ tb, Sql.to_sql_append df t = inr tb.
Proof.
  unfold accepts, Sql.to_sql_append. destruct t as [t0|].
  - destruct (rows df) as [|r rs]; [by split; eauto|].
    destruct (list_find _ _) as [[i c]|] eqn:Hfind.
    + apply list_find_Some in Hfind as (Hc & Hnot & _).
      split; [|by intros [? ?]].
      intros [?|Hall]; [done|]. rewrite Forall_forall in Hall.
      destruct Hnot. apply Hall. by eapply list_elem_of_lookup_2.
    + split; [by eauto|]. intros _. right.
      apply list_find_None in Hfind. eapply Forall_impl; [exact Hfind|].
      intros c Hc. cbn in Hc. by destruct (decide (c ∈ t_columns t0)).
  - destruct (columns df); split; try done; eauto. by intros [? ?].
Qed.

Lemma save_to_sqlite_Ok (df : DataFrame) (db_path table_name : string)
    (w w' : world) :
  save_to_sqlite df db_path table_name w = (Ok tt, w') →
  ∃ tb, Sql.to_sql_append df (store w !! (db_path, table_name)) = inr tb
    ∧ store w' = <[(db_path, table_name) := tb]> (store w)
    ∧ trace w' = trace w ++ [EvToSql db_path table_name (Pd.len df)]
    ∧ frame w' = frame w.
Proof.
  unfold save_to_sqlite.
  destruct (Sql.to_sql_append _ _) as [e|tb]; [done|].
  intros [= <-]. by exists tb.
Qed.

Lemma save_to_sqlite_accepted (df : DataFrame) (db_path table_name : string)
    (w : world) :
  accepts (store w !! (db_path, table_name)) df →
  ∃ w', save_to_sqlite df db_path table_name w = (Ok tt, w').
Proof.
  intros H. apply to_sql_append_accepts in H as [tb Htb].
  unfold save_to_sqlite. rewrite Htb. eauto.
Qed.

(** When two successive writes to the same table both go through, the
    table holds after the second one the rows it held after the first
    followed by the rows of the second batch, so its row count grows by the
    size of that batch; and a table that was absent before the first write
    exists after it, with the columns and the rows of the first batch. *)
Theorem persist_appends (df1 df2 : DataFrame) (db_path table_name : string)
    (w w1 w2 : world) :
  save_to_sqlite df1 db_path table_name w = (Ok tt, w1) →
  save_to_sqlite df2 db_path table_name w1 = (Ok tt, w2) →
  rows_of db_path table_name w2 = rows_of db_path table_name w1 ++ rows df2
  ∧ length (rows_of db_path table_name w2)
    = length (rows_of db_path table_name w1) + Pd.len df2
  ∧ (store w !! (db_path, table_name) = None →
     store w1 !! (db_path, table_name)
     = Some {| t_columns := columns df1; t_rows := rows df1 |}).
Proof.
  intros H1 H2.
  apply save_to_sqlite_Ok in H1 as (t1 & Ht1 & Hs1 & _).
  apply save_to_sqlite_Ok in H2 as (t2 & Ht2 & Hs2 & _).
  unfold rows_of. rewrite Hs2, Hs1 in *. rewrite !lookup_insert_eq in *.
  apply to_sql_append_rows in Ht2 as [Hr2 _]. cbn in *.
  split; [done|]. split.
  - rewrite Hr2, length_app. done.
  - intros Habsent. rewrite Habsent in Ht1.
    apply to_sql_append_rows in Ht1 as [Hr1 Hc1]. cbn in *.
    destruct t1. cbn in *. by subst.
Qed.

Lemma persist_appends_witness :
  rows_of DB_PATH TABLE_NAME SampleStore.after_second
  = rows_of DB_PATH TABLE_NAME SampleStore.after_first
    ++ rows SampleStore.second_batch
  ∧ length (rows_of DB_PATH TABLE_NAME SampleStore.after_second)
    = length (rows_of DB_PATH TABLE_NAME SampleStore.after_first)
      + Pd.len SampleStore.second_batch
  ∧ (store (start ∅) !! (DB_PATH, TABLE_NAME) = None →
     store SampleStore.after_first !! (DB_PATH, TABLE_NAME)
     = Some {| t_columns := columns SampleStore.first_batch;
               t_rows := rows SampleStore.first_batch |}).
Proof.
  apply (persist_appends SampleStore.first_batch SampleStore.second_batch
           DB_PATH TABLE_NAME (start ∅)
           SampleStore.after_first SampleStore.after_second).
  - reflexivity.
  - reflexivity.
Defined.

(** ** A run that goes through *)

Lemma batch_of_rows (E : env) (records : list record) :
  rows (batch_of E records)
  = map (fun r : record =>
           <["timestamp" := VInt (batch_stamp E)]> (list_to_map r)) records.
Proof. unfold batch_of, Pd.setitem. cbn. by rewrite map_map. Qed.

Lemma summary_row_id (r : record) (v : value) :
  summary_record r →
  ∃ id, (<["timestamp" := v]> (list_to_map r) : gmap string value) !! "id"
        = Some (VStr id) ∧ id ≠ "".
Proof.
  intros (id & spr & stars & -> & Hid). exists id. split; [|done].
  cbn. by simplify_map_eq.
Qed.

Lemma batch_of_has_ids (E : env) (records : list record) :
  Forall summary_record records → Forall has_id (rows (batch_of E records)).
Proof.
  intros H. rewrite batch_of_rows. apply Forall_fmap.
  eapply Forall_impl; [exact H|]. intros r Hr. cbn.
  destruct (summary_row_id r (VInt (batch_stamp E)) Hr) as (id & Hid & _).
  by exists (VStr id).
Qed.

Section WholeRun.

Variable E : env.

(** After the fetch: the enrichment step goes through, and what is left
    is the write and the summary line. *)
Lemma finish_run (df : DataFrame) (w : world) :
  Forall has_id (rows df) →
  ∃ w1,
    enrich E {| trace := trace w; frame := df; store := store w |} = (Ok tt, w1)
    ∧ rows (frame w1)
      = imap (fun i r => enriched_row E i (blank_metadata r)) (rows df)
    ∧ columns (frame w1) = fold_left Pd.add_label metadata_cols (columns df)
    ∧ store w1 = store w
    ∧ finish E df w
      = (save_to_sqlite (frame w1) DB_PATH TABLE_NAME;;
         print (summary (Pd.len (frame w1)))) w1.
Proof.
  intros Hids.
  destruct (enrich_run E {| trace := trace w; frame := df; store := store w |})
    as (w1 & Hrun & Hcols & Hrows & Hst); [done|].
  exists w1. repeat split; try done.
  unfold finish. unfold mbind at 1, M_bind at 1. unfold put_frame.
  unfold mbind at 1, M_bind at 1. rewrite Hrun.
  unfold mbind at 1, M_bind at 1. unfold get_frame. done.
Qed.

(** A run that completes has visited every page, read the clock once,
    enriched the batch and appended it, row for row, to the table. *)
Lemma main_Ok (w w' : world) :
  main E w = (Ok tt, w') →
  ∃ records evs,
    Forall summary_record records
    ∧ trace w' = trace w ++ flat_map visit (seq 1 PAGES_TO_SCRAPE)
                 ++ EvClock :: evs
    ∧ Forall (fun ev => is_request ev = false ∧ ev ≠ EvClock) evs
    ∧ rows (frame w')
      = imap (fun i r => enriched_row E i (blank_metadata r))
          (rows (batch_of E records))
    ∧ table_rows w' = table_rows w ++ rows (frame w').
Proof.
  rewrite main_run.
  destruct (scrape_pages E (seq 1 PAGES_TO_SCRAPE) [] w)
    as [[records|e] w0] eqn:Hloop; [|done].
  apply scrape_pages_Ok in Hloop as (Ht & _ & Hs & _ & Hrec).
  specialize (Hrec (Forall_nil_2 _)).
  destruct (finish_run (batch_of E records) (log EvClock w0))
    as (w1 & Henrich & Hrows & _ & Hst & ->).
  { by apply batch_of_has_ids. }
  destruct (emits_enrich E (fun ev => is_request ev = false ∧ ev ≠ EvClock)
              ltac:(done) ltac:(done)
              {| trace := trace (log EvClock w0);
                 frame := batch_of E records;
                 store := store (log EvClock w0) |})
    as (evs & Hevs & Hq).
  rewrite Henrich in Hevs. cbn [snd trace log] in Hevs.
  unfold mbind, M_bind.
  destruct (save_to_sqlite (frame w1) DB_PATH TABLE_NAME w1)
    as [[[]|e] w2] eqn:Hsave; [|done].
  intros [= <-].
  apply save_to_sqlite_Ok in Hsave as (tb & Htb & Hs2 & Ht2 & Hf2).
  exists records,
    (evs ++ [EvToSql DB_PATH TABLE_NAME (Pd.len (frame w1));
             EvPrint (summary (Pd.len (frame w1)))]).
  split; [done|]. split; [|split; [|split]].
  - cbn [trace log]. rewrite Ht2, Hevs, Ht. cbn. by rewrite <- !app_assoc.
  - apply Forall_app. split; [done|]. by repeat constructor.
  - cbn [frame log]. by rewrite Hf2.
  - unfold table_rows, the_table. cbn [store log frame]. rewrite Hf2, Hs2.
    rewrite lookup_insert_eq.
    apply to_sql_append_rows in Htb as [-> _].
    rewrite Hst. cbn [store log]. rewrite Hs.
    by destruct (store w !! (DB_PATH, TABLE_NAME)).
Qed.

End WholeRun.

(** ** Runs that complete *)

Lemma add_label_elem (cols : list string) (c c' : string) :
  c' ∈ Pd.add_label cols c ↔ c' ∈ cols ∨ c' = c.
Proof.
  unfold Pd.add_label. case_bool_decide as H.
  - split; [by left|]. by intros [?| ->].
  - rewrite elem_of_app, list_elem_of_singleton. done.
Qed.

Lemma fold_add_label_elem (labels cols : list string) (c : string) :
  c ∈ fold_left Pd.add_label labels cols ↔ c ∈ cols ∨ c ∈ labels.
Proof.
  revert cols. induction labels as [|l labels IH]; intros cols; cbn.
  - split; [by left|]. intros [?|H]; [done|]. by apply elem_of_nil in H.
  - rewrite IH, add_label_elem, elem_of_cons. tauto.
Qed.

Lemma fold_add_label_known (labels cols : list string) :
  Forall (fun l => l ∈ cols) labels →
  fold_left Pd.add_label labels cols = cols.
Proof.
  induction 1 as [|l labels Hl _ IH]; [done|]. cbn.
  unfold Pd.add_label at 2. by rewrite bool_decide_eq_true_2.
Qed.

(** The frame of a batch with at least one record has the four columns
    the docstring of [get_current_trending] names. *)
Lemma batch_of_columns (E : env) (r : record) (records : list record) :
  Forall summary_record (r :: records) →
  columns (batch_of E (r :: records)) = ["id"; "spr"; "stars"; "timestamp"].
Proof.
  intros H. apply Forall_cons in H as [(id & spr & stars & -> & _) H].
  unfold batch_of, Pd.setitem, Pd.DataFrame_of_records.
  cbn [columns flat_map map fst app fold_left].
  change (Pd.add_label (Pd.add_label (Pd.add_label [] "id") "spr") "stars")
    with ["id"; "spr"; "stars"].
  rewrite fold_add_label_known; [done|].
  apply Forall_flat_map. eapply Forall_impl; [exact H|].
  intros r (id' & spr' & stars' & -> & _). cbn.
  repeat constructor; apply (bool_decide_unpack _); by vm_compute.
Qed.

(** The frame of an empty batch has the stamp as its only column. *)
Lemma batch_of_nil_columns (E : env) :
  columns (batch_of E []) = ["timestamp"].
Proof. reflexivity. Qed.

Lemma batch_of_columns_known (E : env) (records : list record) :
  Forall summary_record records →
  Forall (fun c => c ∈ TABLE_COLUMNS)
    (fold_left Pd.add_label metadata_cols (columns (batch_of E records))).
Proof.
  intros H. apply Forall_forall. intros c Hc.
  apply fold_add_label_elem in Hc as [Hc|Hc].
  - destruct records as [|r records].
    + rewrite batch_of_nil_columns in Hc.
      apply list_elem_of_singleton in Hc as ->.
      apply (bool_decide_unpack _). by vm_compute.
    + rewrite (batch_of_columns E r records H) in Hc.
      unfold TABLE_COLUMNS. apply elem_of_app. by left.
  - unfold TABLE_COLUMNS. apply elem_of_app. by right.
Qed.

Section Completion.

Variable E : env.

Lemma scrape_pages_goes_through (pages : list nat) (records : list record)
    (w : world) :
  Forall (fun page => ¬ fetch_fails E page) pages →
  ∃ recs w', scrape_pages E pages records w = (Ok recs, w').
Proof.
  intros Hok.
  destruct (scrape_pages E pages records w) as [[recs|e] w'] eqn:Hloop;
    [by eauto|].
  apply scrape_pages_Raise in Hloop
    as (before & page & after & -> & _ & Hfail & _).
  apply Forall_app in Hok as [_ Hok]. apply Forall_cons in Hok as [Hok _].
  by destruct Hok.
Qed.

(** X2: a run completes when none of its fetches fails and the table is
    absent or has the columns of the batch. *)
Lemma main_completes (w : world) :
  Forall (fun page => ¬ fetch_fails E page) (seq 1 PAGES_TO_SCRAPE) →
  table_ready w →
  ∃ w', main E w = (Ok tt, w').
Proof.
  intros Hfetch Hready. rewrite main_run.
  destruct (scrape_pages_goes_through (seq 1 PAGES_TO_SCRAPE) [] w Hfetch)
    as (records & w0 & Hloop).
  rewrite Hloop.
  apply scrape_pages_Ok in Hloop as (_ & _ & Hs & _ & Hrec).
  specialize (Hrec (Forall_nil_2 _)).
  destruct (finish_run E (batch_of E records) (log EvClock w0))
    as (w1 & _ & _ & Hcols & Hst & ->).
  { by apply batch_of_has_ids. }
  destruct (save_to_sqlite_accepted (frame w1) DB_PATH TABLE_NAME w1)
    as [w2 Hsave].
  { rewrite Hst. cbn [log store]. rewrite Hs.
    unfold table_ready, the_table in Hready. unfold accepts.
    destruct (store w !! (DB_PATH, TABLE_NAME)) as [tb|].
    - right. rewrite Hcols.
      eapply Forall_impl; [by apply batch_of_columns_known|].
      intros c Hc. cbn in Hc. rewrite Forall_forall in Hready. by apply Hready.
    - rewrite Hcols. cbn. apply add_label_not_nil. }
  unfold mbind, M_bind. rewrite Hsave. by eexists.
Qed.

(** A completed run that found a card leaves a table that is ready for
    every later batch. *)
Lemma main_leaves_table_ready (w w' : world) :
  table_ready w →
  main E w = (Ok tt, w') →
  rows (frame w') ≠ [] →
  table_ready w'.
Proof.
  intros Hready. rewrite main_run.
  destruct (scrape_pages E (seq 1 PAGES_TO_SCRAPE) [] w)
    as [[records|e] w0] eqn:Hloop; [|done].
  apply scrape_pages_Ok in Hloop as (_ & _ & Hs & _ & Hrec).
  specialize (Hrec (Forall_nil_2 _)).
  destruct (finish_run E (batch_of E records) (log EvClock w0))
    as (w1 & _ & Hrows & Hcols & Hst & ->).
  { by apply batch_of_has_ids. }
  unfold mbind, M_bind.
  destruct (save_to_sqlite (frame w1) DB_PATH TABLE_NAME w1)
    as [[[]|e] w2] eqn:Hsave; [|done].
  intros [= <-]. cbn [log frame].
  apply save_to_sqlite_Ok in Hsave as (tb & Htb & Hs2 & _ & Hf2).
  rewrite Hf2. intros Hne.
  unfold table_ready, the_table. cbn [log store].
  rewrite Hs2, lookup_insert_eq.
  apply to_sql_append_rows in Htb as [_ Htc]. rewrite Htc, Hst.
  cbn [log store]. rewrite Hs.
  unfold table_ready, the_table in Hready.
  destruct (store w !! (DB_PATH, TABLE_NAME)) as [tb0|]; [done|].
  cbn [from_option]. rewrite Hcols.
  destruct records as [|r records].
  { rewrite Hrows in Hne. by destruct Hne. }
  rewrite (batch_of_columns E r records Hrec).
  repeat constructor; apply (bool_decide_unpack _); by vm_compute.
Qed.

End Completion.

Lemma main_completes_witness :
  ∃ w', main SampleRun.E (start ∅) = (Ok tt, w').
Proof.
  apply (main_completes SampleRun.E (start ∅)).
  - repeat constructor; vm_compute; discriminate.
  - vm_compute. exact I.
Defined.

(** ** Records without an id *)

Lemma length_omap_le {A B : Type} (f : A → option B) (l : list A) :
  length (omap f l) ≤ length l.
Proof.
  induction l as [|x l IH]; [done|]. cbn. destruct (f x); cbn; lia.
Qed.

Lemma card_record_None (card : node) :
  lacks_id card → card_record card = None.
Proof.
  intros [H|[H|[(href & H & Hs)|H]]].
  - unfold card_record, card_paper_id, card_link. by rewrite H.
  - unfold card_record, card_paper_id. by rewrite H.
  - unfold card_record, card_paper_id. by rewrite H, Hs.
  - unfold card_record. by rewrite H.
Qed.

Lemma persisted_rows_have_ids (E : env) (w w' : world) :
  main E w = (Ok tt, w') →
  ∃ new, table_rows w' = table_rows w ++ new
    ∧ Forall (fun row : gmap string value =>
                ∃ id, row !! "id" = Some (VStr id) ∧ id ≠ "") new.
Proof.
  intros Hmain. apply main_Ok in Hmain
    as (records & evs & Hrec & _ & _ & Hrows & Htable).
  exists (rows (frame w')). split; [done|].
  rewrite Hrows, batch_of_rows. apply Forall_forall. intros row Hrow.
  apply elem_of_lookup_imap in Hrow as (i & r0 & -> & Hr0).
  apply list_lookup_fmap_Some in Hr0 as (rec & -> & Hrec').
  rewrite Forall_forall in Hrec.
  assert (summary_record rec) as Hsum.
  { apply Hrec. by eapply list_elem_of_lookup_2. }
  destruct (summary_row_id rec (VInt (batch_stamp E)) Hsum) as (id & Hid & Hne).
  exists id. split; [|done].
  destruct (enriched_row_fields E i
              (<["timestamp" := VInt (batch_stamp E)]> (list_to_map rec)))
    as [Hkeep _]; [by exists (VStr id)|].
  by rewrite (Hkeep "id" id_not_metadata).
Qed.

(** C5: a card without an image column, without a link with a target
    below it, whose link target does not start with /paper/, or whose
    target leaves an empty id yields no record; the Extractor's output is
    what the cards yield, so it is no longer than the list of cards; every
    record in it has a non-empty id; and so has every row a completed run
    appends to the table. *)
Theorem records_have_ids (E : env) (soup : node) (w w' : world) :
  (∀ card, lacks_id card → card_record card = None)
  ∧ extractor soup = omap card_record (page_cards soup)
  ∧ length (extractor soup) ≤ length (page_cards soup)
  ∧ Forall (fun r => ∃ id, record_id r = VStr id ∧ id ≠ "") (extractor soup)
  ∧ (main E w = (Ok tt, w') →
     ∃ new, table_rows w' = table_rows w ++ new
       ∧ Forall (fun row : gmap string value =>
                   ∃ id, row !! "id" = Some (VStr id) ∧ id ≠ "") new).
Proof.
  split; [exact card_record_None|].
  split; [apply extractor_omap|].
  split; [rewrite extractor_omap; apply length_omap_le|].
  split; [|apply persisted_rows_have_ids].
  rewrite extractor_omap. apply Forall_forall. intros r Hr.
  apply list_elem_of_omap in Hr as (card & _ & Hcard).
  apply card_record_Some in Hcard as (id & _ & Hne & Hid).
  by exists id.
Qed.

Lemma records_have_ids_witness :
  length (extractor Sample.one_of_two) ≤ length (page_cards Sample.one_of_two)
  ∧ Forall (fun r => ∃ id, record_id r = VStr id ∧ id ≠ "")
      (extractor Sample.one_of_two)
  ∧ ∃ new,
      table_rows (main SampleRun.E (start ∅)).2
      = table_rows (start ∅) ++ new
      ∧ Forall (fun row : gmap string value =>
                  ∃ id, row !! "id" = Some (VStr id) ∧ id ≠ "") new.
Proof.
  destruct (records_have_ids SampleRun.E Sample.one_of_two (start ∅)
              (main SampleRun.E (start ∅)).2)
    as (_ & _ & Hlen & Hids & Hrun).
  split; [exact Hlen|]. split; [exact Hids|].
  apply Hrun. vm_compute. reflexivity.
Defined.

(** ** An empty batch *)

Section EmptyBatch.

Variable E : env.

(** On a frame without rows the enrichment step adds the five columns
    and does nothing else: the loop is not entered. *)
Lemma enrich_empty (w : world) :
  rows (frame w) = [] →
  enrich E w
  = (Ok tt,
     {| trace := trace w;
        frame := {| columns := fold_left Pd.add_label metadata_cols
                                 (columns (frame w));
                    rows := [] |};
        store := store w |}).
Proof.
  intros Hrows. unfold enrich.
  rewrite (bind_Ok _ _ _ _ _ (init_metadata_cols w)).
  unfold get_frame. unfold mbind at 1, M_bind at 1. cbn [frame].
  rewrite Hrows. cbn [map]. unfold Pd.empty. cbn [columns rows].
  by destruct (fold_left _ _ _).
Qed.

Lemma finish_empty (df : DataFrame) (w : world) :
  rows df = [] →
  ∃ w', finish E df w = (Ok tt, w')
    ∧ trace w' = trace w ++ [EvToSql DB_PATH TABLE_NAME 0; EvPrint (summary 0)]
    ∧ table_rows w' = table_rows w
    ∧ is_Some (the_table w').
Proof.
  intros Hrows.
  set (w0 := {| trace := trace w; frame := df; store := store w |}).
  pose proof (enrich_empty w0 Hrows) as Henrich.
  set (df' := {| columns := fold_left Pd.add_label metadata_cols (columns df);
                 rows := [] |}) in *.
  set (w1 := {| trace := trace w; frame := df'; store := store w |}) in *.
  destruct (save_to_sqlite_accepted df' DB_PATH TABLE_NAME w1) as [w2 Hsave].
  { unfold accepts. destruct (store w1 !! _); [by left|].
    cbn. apply add_label_not_nil. }
  pose proof Hsave as Hsave'.
  apply save_to_sqlite_Ok in Hsave' as (tb & Htb & Hs2 & Ht2 & Hf2).
  exists (log (EvPrint (summary 0)) w2). split; [|split; [|split]].
  - unfold finish. unfold mbind at 1, M_bind at 1. unfold put_frame.
    fold w0. unfold mbind at 1, M_bind at 1. rewrite Henrich.
    unfold mbind at 1, M_bind at 1. unfold get_frame. cbn [frame].
    unfold mbind, M_bind.
    change (save_to_sqlite _ DB_PATH TABLE_NAME _)
      with (save_to_sqlite df' DB_PATH TABLE_NAME w1).
    rewrite Hsave. done.
  - cbn [log trace]. rewrite Ht2. cbn. by rewrite <- app_assoc.
  - unfold table_rows, the_table. cbn [log store]. rewrite Hs2.
    rewrite lookup_insert_eq.
    apply to_sql_append_rows in Htb as [-> _]. cbn.
    rewrite app_nil_r. by destruct (store w !! (DB_PATH, TABLE_NAME)).
  - unfold the_table. cbn [log store]. rewrite Hs2, lookup_insert_eq. eauto.
Qed.

End EmptyBatch.

(** C10: when the pages yield no record, the run completes; after the
    fetch it only writes to the store and prints, so no lookup is issued;
    the write carries no row, the table holds the rows it held (and exists
    afterwards), and the summary line reports 0. *)
Theorem empty_batch_run (E : env) (w w1 : world) (df : DataFrame) :
  get_current_trending E PAGES_TO_SCRAPE w = (Ok df, w1) →
  Pd.len df = 0 →
  ∃ w', main E w = (Ok tt, w')
    ∧ trace w'
      = trace w ++ flat_map visit (seq 1 PAGES_TO_SCRAPE)
        ++ [EvClock; EvToSql DB_PATH TABLE_NAME 0; EvPrint (summary 0)]
    ∧ Forall (fun ev => is_lookup ev = false)
        (flat_map visit (seq 1 PAGES_TO_SCRAPE)
         ++ [EvClock; EvToSql DB_PATH TABLE_NAME 0; EvPrint (summary 0)])
    ∧ table_rows w' = table_rows w
    ∧ is_Some (the_table w')
    ∧ summary 0
      = "Appended 0 records to SQLite database table 'trending_papers' in 'trending_papers.db'.".
Proof.
  rewrite get_current_trending_run, main_run.
  destruct (scrape_pages E (seq 1 PAGES_TO_SCRAPE) [] w)
    as [[records|e] w0] eqn:Hloop; [|done].
  intros [= <- <-] Hlen.
  apply scrape_pages_Ok in Hloop as (Ht & _ & Hs & _).
  destruct (finish_empty E (batch_of E records) (log EvClock w0))
    as (w' & Hrun & Ht' & Hrows & Htable).
  { by apply nil_length_inv. }
  exists w'. split; [done|]. split; [|split; [|split; [|split]]].
  - rewrite Ht'. cbn [log trace]. rewrite Ht, <- !app_assoc. done.
  - apply Forall_app. split; [|by repeat constructor].
    apply Forall_flat_map, Forall_forall. intros page _.
    by repeat constructor.
  - rewrite Hrows. unfold table_rows, the_table. cbn [log store].
    by rewrite Hs.
  - done.
  - vm_compute. reflexivity.
Qed.

Lemma empty_batch_run_witness :
  ∃ w', main SampleEmpty.E (start ∅) = (Ok tt, w')
    ∧ trace w'
      = trace (start ∅) ++ flat_map visit (seq 1 PAGES_TO_SCRAPE)
        ++ [EvClock; EvToSql DB_PATH TABLE_NAME 0; EvPrint (summary 0)]
    ∧ Forall (fun ev => is_lookup ev = false)
        (flat_map visit (seq 1 PAGES_TO_SCRAPE)
         ++ [EvClock; EvToSql DB_PATH TABLE_NAME 0; EvPrint (summary 0)])
    ∧ table_rows w' = table_rows (start ∅)
    ∧ is_Some (the_table w')
    ∧ summary 0
      = "Appended 0 records to SQLite database table 'trending_papers' in 'trending_papers.db'.".
Proof.
  apply (empty_batch_run SampleEmpty.E (start ∅)
           (get_current_trending SampleEmpty.E PAGES_TO_SCRAPE (start ∅)).2
           (batch_of SampleEmpty.E [])).
  - vm_compute. reflexivity.
  - reflexivity.
Defined.

(** ** The batch timestamp *)

(** X1: the batch [get_current_trending] returns carries one stamp on
    all its rows, and the clock is read once, after the last page was
    requested and its delay slept. *)
Lemma batch_shares_one_stamp (E : env) (pages : nat) (w w' : world)
    (df : DataFrame) :
  get_current_trending E pages w = (Ok df, w') →
  Forall (fun r : gmap string value =>
            r !! "timestamp" = Some (VInt (batch_stamp E))) (rows df)
  ∧ trace w' = trace w ++ flat_map visit (seq 1 pages) ++ [EvClock].
Proof.
  rewrite get_current_trending_run.
  destruct (scrape_pages E (seq 1 pages) [] w) as [[records|e] w0] eqn:Hloop;
    [|done].
  intros [= <- <-]. apply scrape_pages_Ok in Hloop as (Ht & _).
  split.
  - rewrite batch_of_rows. apply Forall_fmap, Forall_forall.
    intros r _. cbn. apply lookup_insert_eq.
  - cbn [log trace]. by rewrite Ht, <- app_assoc.
Qed.

Lemma batch_shares_one_stamp_witness :
  Forall (fun r : gmap string value =>
            r !! "timestamp" = Some (VInt (batch_stamp SampleRun.E)))
    (rows (batch_of SampleRun.E (extractor Sample.two_cards)))
  ∧ trace (get_current_trending SampleRun.E PAGES_TO_SCRAPE (start ∅)).2
    = trace (start ∅) ++ flat_map visit (seq 1 PAGES_TO_SCRAPE) ++ [EvClock].
Proof.
  apply (batch_shares_one_stamp SampleRun.E PAGES_TO_SCRAPE (start ∅)).
  vm_compute. reflexivity.
Defined.

(** On a host whose local time is UTC the stamp is the POSIX time. *)
Lemma batch_stamp_utc (E : env) :
  utcoffset E = 0%Z → batch_stamp E = posix_seconds E.
Proof.
  intros H. unfold batch_stamp, int_timestamp, posix_seconds.
  rewrite H. f_equal. lia.
Qed.

(** Elsewhere it is the POSIX time less the offset of the local zone. *)
Lemma batch_stamp_local (E : env) :
  (0 ≤ utcoffset E * 1000000 ≤ posix_micros E)%Z →
  batch_stamp E = (posix_seconds E - utcoffset E)%Z.
Proof.
  intros H. unfold batch_stamp, int_timestamp, posix_seconds.
  rewrite !Z.quot_div_nonneg by lia.
  replace (posix_micros E - utcoffset E * 1000000)%Z
    with (posix_micros E + (- utcoffset E) * 1000000)%Z by lia.
  rewrite Z.div_add by lia. lia.
Qed.

(** C4 at a host one hour east of UTC: the clock is read at POSIX time
    1700000000, and both rows of the batch are stamped 1699996400. *)
Theorem stamp_is_local_reading_of_utc_clock :
  posix_seconds SampleZone.E = 1700000000%Z
  ∧ ∃ df, SampleZone.batch = Ok df
      ∧ map (fun r : gmap string value => r !! "timestamp") (rows df)
        = [Some (VInt 1699996400); Some (VInt 1699996400)].
Proof.
  split; [reflexivity|].
  eexists. split; [vm_compute; reflexivity|]. vm_compute. reflexivity.
Qed.

(** ** Successive runs *)

(** Two completed runs, the second starting from the store the first
    left: the table grows by the second run's batch. *)
Lemma successive_runs_append (E1 E2 : env) (w w1 w2 : world) :
  main E1 w = (Ok tt, w1) →
  main E2 (start (store w1)) = (Ok tt, w2) →
  table_rows w2 = table_rows w1 ++ rows (frame w2)
  ∧ length (table_rows w2) = length (table_rows w1) + Pd.len (frame w2).
Proof.
  intros _ H2. apply main_Ok in H2 as (records & evs & _ & _ & _ & _ & Htable).
  assert (table_rows w2 = table_rows w1 ++ rows (frame w2)) as Hrows.
  { exact Htable. }
  split; [done|]. rewrite Hrows at 1. by rewrite length_app.
Qed.

(** C7 fails for two successive runs of the script. The first run finds
    no card: its batch has the column timestamp alone, not the four
    columns the docstring of [get_current_trending] names, the run
    completes and the table it creates has no id, spr or stars column. The
    second run gathers a batch of two rows with the four columns; the
    store refuses its write, the run raises, and the table holds as many
    rows after it as before, not two more. *)
Theorem second_run_after_empty_run_is_refused :
  (get_current_trending SampleEmpty.E PAGES_TO_SCRAPE (start ∅)).1
  = Ok {| columns := ["timestamp"]; rows := [] |}
  ∧ (main SampleEmpty.E (start ∅)).1 = Ok tt
  ∧ the_table SampleEmpty.after_run
    = Some {| t_columns := ["timestamp"; "title"; "arxiv_id"; "url_pdf";
                            "abstract"; "published"];
              t_rows := [] |}
  ∧ (∃ df,
       (get_current_trending SampleRun.E PAGES_TO_SCRAPE
          (start (store SampleEmpty.after_run))).1 = Ok df
       ∧ columns df = ["id"; "spr"; "stars"; "timestamp"]
       ∧ Pd.len df = 2)
  ∧ (∃ e,
       (main SampleRun.E (start (store SampleEmpty.after_run))).1 = Raise e
       ∧ exn_class e = "OperationalError")
  ∧ length (table_rows
              (main SampleRun.E (start (store SampleEmpty.after_run))).2)
    = length (table_rows SampleEmpty.after_run)
  ∧ length (table_rows
              (main SampleRun.E (start (store SampleEmpty.after_run))).2)
    ≠ length (table_rows SampleEmpty.after_run) + 2.
Proof.
  split; [vm_compute; reflexivity|].
  split; [vm_compute; reflexivity|].
  split; [vm_compute; reflexivity|].
  split; [eexists; split; [vm_compute; reflexivity|]; by vm_compute|].
  split; [eexists; split; [vm_compute; reflexivity|]; by vm_compute|].
  split; [vm_compute; reflexivity|].
  vm_compute. discriminate.
Qed.

(** * Further properties of the script *)

(** ** The batch [get_current_trending] returns *)

Lemma scrape_pages_records (E : env) (pages : list nat)
    (records recs : list record) (w w' : world) :
  scrape_pages E pages records w = (Ok recs, w') →
  recs = records ++ flat_map (page_records E) pages.
Proof.
  revert records w. induction pages as [|page rest IH]; intros records w.
  - intros [= <- _]. by rewrite app_nil_r.
  - rewrite scrape_pages_cons. cbn [flat_map]. unfold page_records at 1.
    destruct (http_get E (page_url page)) as [e|r]; [done|].
    destruct (error_status (status_code r)); [done|].
    intros H. apply IH in H as ->.
    by rewrite extract_page_omap, extractor_omap, <- app_assoc.
Qed.

(** X3: the rows of the batch are the records of page 1, then those of
    page 2, and so on, each page in document order, every one with the
    stamp; a record that shows on two pages is in the batch twice. *)
Theorem batch_is_the_pages_in_order (E : env) (pages : nat) (w w' : world)
    (df : DataFrame) :
  get_current_trending E pages w = (Ok df, w') →
  rows df = map (stamped E) (flat_map (page_records E) (seq 1 pages))
  ∧ Pd.len df = length (flat_map (page_records E) (seq 1 pages)).
Proof.
  rewrite get_current_trending_run.
  destruct (scrape_pages E (seq 1 pages) [] w) as [[records|e] w0] eqn:Hloop;
    [|done].
  intros [= <- _]. apply scrape_pages_records in Hloop as ->.
  unfold Pd.len. rewrite batch_of_rows. split; [done|].
  by rewrite length_map.
Qed.

Lemma batch_is_the_pages_in_order_witness :
  rows (batch_of SampleTwice.E
          (extractor Sample.two_cards ++ extractor Sample.two_cards))
  = map (stamped SampleTwice.E)
      (flat_map (page_records SampleTwice.E) (seq 1 2))
  ∧ Pd.len (batch_of SampleTwice.E
              (extractor Sample.two_cards ++ extractor Sample.two_cards))
    = length (flat_map (page_records SampleTwice.E) (seq 1 2)).
Proof.
  apply (batch_is_the_pages_in_order SampleTwice.E 2 (start ∅)
           (get_current_trending SampleTwice.E 2 (start ∅)).2).
  vm_compute. reflexivity.
Defined.

(** X4: the frame [get_current_trending] returns has the columns id, spr,
    stars and timestamp when it has a row, and the timestamp column alone
    when it has none. *)
Theorem batch_columns (E : env) (pages : nat) (w w' : world) (df : DataFrame) :
  get_current_trending E pages w = (Ok df, w') →
  (rows df = [] ∧ columns df = ["timestamp"])
  ∨ (rows df ≠ [] ∧ columns df = ["id"; "spr"; "stars"; "timestamp"]).
Proof.
  rewrite get_current_trending_run.
  destruct (scrape_pages E (seq 1 pages) [] w) as [[records|e] w0] eqn:Hloop;
    [|done].
  intros [= <- _]. apply scrape_pages_Ok in Hloop as (_ & _ & _ & _ & Hrec).
  specialize (Hrec (Forall_nil_2 _)).
  destruct records as [|r records].
  - left. by rewrite batch_of_nil_columns.
  - right. rewrite (batch_of_columns E r records Hrec).
    by rewrite batch_of_rows.
Qed.

Lemma batch_columns_witness :
  (rows (batch_of SampleEmpty.E []) = []
   ∧ columns (batch_of SampleEmpty.E []) = ["timestamp"])
  ∨ (rows (batch_of SampleEmpty.E []) ≠ []
     ∧ columns (batch_of SampleEmpty.E [])
       = ["id"; "spr"; "stars"; "timestamp"]).
Proof.
  apply (batch_columns SampleEmpty.E PAGES_TO_SCRAPE (start ∅)
           (get_current_trending SampleEmpty.E PAGES_TO_SCRAPE (start ∅)).2).
  vm_compute. reflexivity.
Defined.

(** ** The exception of a failed fetch *)

Lemma scrape_pages_first_error (E : env) (before after : list nat)
    (page : nat) (e : exn) (records : list record) (w : world) :
  Forall (fun p => fetch_error E p = None) before →
  fetch_error E page = Some e →
  ∃ w',
    scrape_pages E (before ++ page :: after) records w = (Raise e, w')
    ∧ trace w' = trace w ++ flat_map visit before
                 ++ [EvRequest (page_url page)]
    ∧ frame w' = frame w ∧ store w' = store w.
Proof.
  intros Hbefore Hpage. revert records w.
  induction Hbefore as [|p before Hp _ IH]; intros records w.
  - cbn [app]. rewrite scrape_pages_cons. unfold fetch_error in Hpage.
    destruct (http_get E (page_url page)) as [e'|r].
    + injection Hpage as ->. by eexists.
    + destruct (error_status (status_code r)); [|done].
      injection Hpage as <-. by eexists.
  - cbn [app]. rewrite scrape_pages_cons. unfold fetch_error in Hp.
    destruct (http_get E (page_url p)) as [e'|r]; [done|].
    destruct (error_status (status_code r)); [done|].
    destruct (IH (extract_page (body r) records)
                (log (EvSleep 1) (log (EvRequest (page_url p)) w)))
      as (w' & Hrun & Ht & Hf & Hs).
    exists w'. split; [done|]. split; [|done].
    rewrite Ht. cbn. by rewrite <- !app_assoc.
Qed.

(** X5: the run raises the exception of the first page whose fetch
    fails, be it the one [requests.get] raised or the [HTTPError] of the
    status check: the pages before it were visited, its request is the last
    effect, the records gathered so far are dropped with the frame and the
    store as they were, and neither the clock nor the client is reached. *)
Theorem first_fetch_error_is_raised (E : env) (w : world) (page : nat)
    (e : exn) :
  1 ≤ page ≤ PAGES_TO_SCRAPE →
  fetch_error E page = Some e →
  (∀ p, 1 ≤ p < page → fetch_error E p = None) →
  ∃ w',
    main E w = (Raise e, w')
    ∧ trace w' = trace w ++ flat_map visit (seq 1 (page - 1))
                 ++ [EvRequest (page_url page)]
    ∧ frame w' = frame w ∧ store w' = store w.
Proof.
  intros Hpage He Hbefore.
  destruct (scrape_pages_first_error E (seq 1 (page - 1))
              (seq (S page) (PAGES_TO_SCRAPE - page)) page e [] w)
    as (w' & Hrun & Ht & Hf & Hs); [|done|].
  { apply Forall_forall. intros p Hp. apply elem_of_seq in Hp.
    apply Hbefore. lia. }
  exists w'. split; [|done]. apply main_Raise.
  rewrite <- Hrun. f_equal.
  replace PAGES_TO_SCRAPE
    with ((page - 1) + S (PAGES_TO_SCRAPE - page)) at 1 by lia.
  rewrite seq_app. cbn [seq].
  replace (1 + (page - 1)) with page by lia. done.
Qed.

Lemma first_fetch_error_is_raised_witness :
  ∃ w',
    main SampleUnreachable.E (start ∅)
    = (Raise (mkExn "ConnectionError" "unreachable"), w')
    ∧ trace w' = trace (start ∅) ++ flat_map visit (seq 1 (2 - 1))
                 ++ [EvRequest (page_url 2)]
    ∧ frame w' = frame (start ∅) ∧ store w' = store (start ∅).
Proof.
  apply (first_fetch_error_is_raised SampleUnreachable.E (start ∅) 2).
  - unfold PAGES_TO_SCRAPE. lia.
  - reflexivity.
  - intros p Hp. assert (p = 1) as -> by lia. reflexivity.
Defined.

(** ** The URLs of a run *)

Lemma append_inj_r (p a b : string) : p +:+ a = p +:+ b → a = b.
Proof. induction p as [|c p IH]; [done|]. intros [= H]. by apply IH. Qed.

#[global] Instance page_url_inj : Inj (=) (=) page_url.
Proof.
  intros p q H. unfold page_url in H.
  apply append_inj_r, append_inj_r in H. by apply (inj pretty).
Qed.

Lemma requested_quiet (evs : list event) :
  Forall no_request evs → requested evs = [].
Proof.
  induction 1 as [|ev evs Hev _ IH]; [done|].
  unfold requested in *. cbn. by destruct ev.
Qed.

Lemma requested_visits (pages : list nat) (evs : list event) :
  requested (flat_map visit pages ++ evs)
  = map page_url pages ++ requested evs.
Proof.
  induction pages as [|page pages IH]; [done|].
  unfold requested in *. cbn. by rewrite IH.
Qed.

Lemma seq_prefix (a n : nat) (l1 l2 : list nat) :
  seq a n = l1 ++ l2 → l1 = seq a (length l1) ∧ length l1 ≤ n.
Proof.
  intros H.
  assert (length l1 ≤ n) as Hlen.
  { apply (f_equal length) in H. rewrite length_seq, length_app in H. lia. }
  split; [|done].
  transitivity (take (length l1) (seq a n)).
  - by rewrite H, take_app_length.
  - rewrite take_seq. f_equal. lia.
Qed.

(** X6: the requests of a run go to the URLs of pages 1, 2, ... up to
    the page where it stops, in that order, each once: no page is requested
    twice, none is skipped, and a run that completes has requested all
    ten. *)
Theorem requests_are_the_pages_in_order (E : env)
    (st : gmap (string * string) Table) :
  ∃ k, 1 ≤ k ≤ PAGES_TO_SCRAPE
    ∧ requested (trace (main E (start st)).2) = map page_url (seq 1 k)
    ∧ NoDup (requested (trace (main E (start st)).2))
    ∧ ((main E (start st)).1 = Ok tt → k = PAGES_TO_SCRAPE).
Proof.
  assert (∀ k, NoDup (map page_url (seq 1 k))) as Hnodup.
  { intros k. apply (NoDup_fmap_2 page_url), NoDup_seq. }
  rewrite main_run.
  destruct (scrape_pages E (seq 1 PAGES_TO_SCRAPE) [] (start st))
    as [[records|e] w0] eqn:Hloop.
  - apply scrape_pages_Ok in Hloop as (Ht & _).
    destruct (emits_finish E (batch_of E records) (log EvClock w0))
      as (evs & Hevs & Hq).
    exists PAGES_TO_SCRAPE.
    assert (requested (trace (finish E (batch_of E records)
                                (log EvClock w0)).2)
            = map page_url (seq 1 PAGES_TO_SCRAPE)) as Hreq.
    { rewrite Hevs. cbn [log trace]. rewrite Ht. cbn [start trace app].
      rewrite <- app_assoc, requested_visits.
      rewrite (requested_quiet ([EvClock] ++ evs)), app_nil_r; [done|].
      by constructor. }
    rewrite Hreq. split; [unfold PAGES_TO_SCRAPE; lia|]. done.
  - apply scrape_pages_Raise in Hloop
      as (before & page & after & Hsplit & _ & _ & Ht & _).
    change (before ++ page :: after) with (before ++ [page] ++ after) in Hsplit.
    rewrite app_assoc in Hsplit.
    apply seq_prefix in Hsplit as [Hpre Hlen].
    rewrite length_app in Hpre, Hlen. cbn [length] in Hpre, Hlen.
    exists (length before + 1). cbn [fst snd].
    assert (requested (trace w0) = map page_url (seq 1 (length before + 1)))
      as Hreq.
    { rewrite Ht. cbn [start trace app].
      rewrite requested_visits. cbn. rewrite <- Hpre.
      by rewrite map_app. }
    rewrite Hreq. split; [lia|]. done.
Qed.

(** ** The lookups of the enrichment step *)

Section Lookups.

Variable E : env.

Lemma enrich_row_trace (idx : nat) (r : gmap string value) (w : world) :
  has_id r →
  trace (enrich_row E (idx, r) w).2 = trace w ++ lookup_events E idx r.
Proof.
  intros [paper_id Hid]. unfold enrich_row, getitem, lookup_events.
  cbn [fst snd]. rewrite Hid.
  unfold mbind at 1, M_bind at 1. cbn [mret M_ret].
  unfold try_except, get_paper_metadata, client_paper_get.
  unfold mbind at 1, M_bind at 1. unfold mbind at 1, M_bind at 1.
  destruct (paper_get E idx paper_id) as [e|p].
  - cbn. by rewrite <- app_assoc.
  - unfold mret, M_ret. by rewrite merge_writes.
Qed.

Lemma enrich_loop_trace (items : list (nat * gmap string value)) (w : world) :
  Forall (fun item => has_id item.2) items →
  trace (for_each (enrich_row E) items w).2
  = trace w ++ flat_map (fun item => lookup_events E item.1 item.2) items.
Proof.
  intros Hids. revert w.
  induction Hids as [|[idx r] items [paper_id Hid] _ IH]; intros w.
  - cbn. by rewrite app_nil_r.
  - cbn [for_each flat_map fst snd].
    destruct (enrich_row_run E idx r paper_id w Hid) as (w1 & Hrun & _).
    rewrite (bind_Ok _ _ _ _ _ Hrun), IH.
    pose proof (enrich_row_trace idx r w) as Ht.
    rewrite Hrun in Ht. cbn [snd] in Ht.
    rewrite Ht by (by exists paper_id). by rewrite <- app_assoc.
Qed.

Lemma flat_map_imap_pair {A B : Type} (g : nat → A → list B) (k : nat → nat)
    (l : list A) :
  flat_map (fun item : nat * A => g item.1 item.2)
    (imap (fun i r => (k i, r)) l)
  = concat (imap (fun i r => g (k i) r) l).
Proof.
  revert k. induction l as [|x l IH]; intros k; [done|].
  rewrite !imap_cons. cbn [flat_map concat fst snd]. f_equal.
  apply (IH (k ∘ S)).
Qed.

Lemma flat_map_iterrows {A B : Type} (g : nat → A → list B) (l : list A) :
  flat_map (fun item : nat * A => g item.1 item.2) (imap (fun i r => (i, r)) l)
  = concat (imap g l).
Proof. apply (flat_map_imap_pair g id l). Qed.

Lemma lookup_events_blank (idx : nat) (r : gmap string value) :
  lookup_events E idx (blank_metadata r) = lookup_events E idx r.
Proof.
  unfold lookup_events.
  by rewrite (blank_metadata_other r "id" id_not_metadata).
Qed.

Lemma enrich_trace (w : world) :
  Forall has_id (rows (frame w)) →
  trace (enrich E w).2
  = trace w ++ concat (imap (lookup_events E) (rows (frame w))).
Proof.
  intros Hids. unfold enrich.
  rewrite (bind_Ok _ _ _ _ _ (init_metadata_cols w)).
  unfold get_frame. unfold mbind at 1, M_bind at 1. cbn [frame].
  set (w1 := {| trace := trace w; frame := _; store := store w |}).
  destruct (Pd.empty _) eqn:Hempty; cbn [negb].
  - unfold Pd.empty in Hempty. cbn [columns rows] in Hempty.
    destruct (fold_left _ _ _) as [|c cols] eqn:Hcols.
    { cbn in Hcols. by apply add_label_not_nil in Hcols. }
    destruct (rows (frame w)) as [|r rs]; [|done].
    cbn. by rewrite app_nil_r.
  - rewrite enrich_loop_trace.
    + unfold Pd.iterrows. subst w1. cbn [frame rows trace]. f_equal.
      rewrite flat_map_iterrows.
      change (map blank_metadata (rows (frame w)))
        with (blank_metadata <$> rows (frame w)).
      rewrite imap_fmap. f_equal. apply imap_ext. intros i r _.
      apply lookup_events_blank.
    + unfold Pd.iterrows. subst w1. cbn [frame rows].
      apply Forall_forall. intros [i r'] Hin.
      apply elem_of_lookup_imap in Hin as (j & r0 & [= -> ->] & Hr0).
      apply list_lookup_fmap_Some in Hr0 as (r & -> & Hr).
      rewrite Forall_forall in Hids. cbn. apply has_id_blank, Hids.
      by eapply list_elem_of_lookup_2.
Qed.

Lemma looked_up_rows (h : nat → gmap string value → list event)
    (rs : list (gmap string value)) :
  (∀ i r, looked_up (h i r) = option_list (r !! "id")) →
  looked_up (concat (imap h rs)) = omap (fun r => r !! "id") rs.
Proof.
  revert h. induction rs as [|r rs IH]; intros h Hh; [done|].
  rewrite imap_cons. cbn [concat]. unfold looked_up in *.
  rewrite omap_app, Hh, (IH (h ∘ S)) by (intros; apply Hh).
  cbn. by destruct (r !! "id").
Qed.

Lemma looked_up_lookup_events (idx : nat) (r : gmap string value) :
  looked_up (lookup_events E idx r) = option_list (r !! "id").
Proof.
  unfold lookup_events. destruct (r !! "id") as [paper_id|]; [|done].
  by destruct (paper_get E idx paper_id).
Qed.

End Lookups.

(** X7: the enrichment step issues one lookup per row, in row order and
    with the id of that row, so that an id that occurs on two rows is
    looked up twice; each lookup that raises is followed at once by one
    line that names the id and the error, and nothing else is done. *)
Theorem enrichment_looks_up_each_row_once (E : env) (w : world) :
  Forall has_id (rows (frame w)) →
  trace (enrich E w).2
  = trace w ++ concat (imap (lookup_events E) (rows (frame w)))
  ∧ looked_up (concat (imap (lookup_events E) (rows (frame w))))
    = omap (fun r : gmap string value => r !! "id") (rows (frame w)).
Proof.
  intros Hids. split; [by apply enrich_trace|].
  apply looked_up_rows. intros i r. apply looked_up_lookup_events.
Qed.

Lemma enrichment_looks_up_each_row_once_witness :
  trace (enrich SampleBatch.E SampleRepeat.w).2
  = trace SampleRepeat.w
    ++ concat (imap (lookup_events SampleBatch.E)
                 (rows (frame SampleRepeat.w)))
  ∧ looked_up (concat (imap (lookup_events SampleBatch.E)
                         (rows (frame SampleRepeat.w))))
    = omap (fun r : gmap string value => r !! "id")
        (rows (frame SampleRepeat.w)).
Proof.
  apply (enrichment_looks_up_each_row_once SampleBatch.E SampleRepeat.w).
  repeat constructor; by eexists.
Defined.

(** The sample batch with a repeated id: three lookups, one line. *)
Example sample_repeat_trace :
  trace (enrich SampleBatch.E SampleRepeat.w).2
  = [EvLookup (VStr "abc123"); EvLookup (VStr "gone");
     EvPrint "Error fetching metadata for gone: 404 Not Found";
     EvLookup (VStr "abc123")].
Proof. vm_compute. reflexivity. Qed.

(** ** What a write leaves alone *)

(** X8: [save_to_sqlite] changes no table but the one it names and not
    the frame; the rows that table held stay, in their order, at its head;
    the call returns exactly when the store accepts the frame, and a
    refused write leaves the store as it was. *)
Theorem save_touches_only_its_table (df : DataFrame)
    (db_path table_name : string) (w : world) :
  (∀ key, key ≠ (db_path, table_name) →
     store (save_to_sqlite df db_path table_name w).2 !! key = store w !! key)
  ∧ frame (save_to_sqlite df db_path table_name w).2 = frame w
  ∧ rows_of db_path table_name w
    `prefix_of` rows_of db_path table_name
                  (save_to_sqlite df db_path table_name w).2
  ∧ ((save_to_sqlite df db_path table_name w).1 = Ok tt
     ↔ accepts (store w !! (db_path, table_name)) df)
  ∧ (¬ accepts (store w !! (db_path, table_name)) df →
     store (save_to_sqlite df db_path table_name w).2 = store w).
Proof.
  pose proof (to_sql_append_accepts df (store w !! (db_path, table_name)))
    as Hacc.
  unfold rows_of, save_to_sqlite.
  destruct (Sql.to_sql_append df (store w !! (db_path, table_name)))
    as [e|tb] eqn:Htb; cbn [fst snd store frame log].
  - split; [done|]. split; [done|]. split; [done|]. split; [|done].
    split; [done|]. intros H. apply Hacc in H as [tb' ?]. done.
  - split; [intros key Hkey; by rewrite lookup_insert_ne|].
    split; [done|]. rewrite lookup_insert_eq. cbn [from_option].
    apply to_sql_append_rows in Htb as [-> _].
    split; [by apply prefix_app_r|]. split.
    + split; [|done]. intros _. apply Hacc. eauto.
    + intros H. destruct H. apply Hacc. eauto.
Qed.

(** ** The columns of the table *)

(** X9: a run that finds no record while the table is absent creates the
    table from a frame that has no id, spr or stars column: it has the
    timestamp and the five metadata columns, and no row. *)
Theorem empty_run_creates_table_without_id (E : env) (w w1 : world)
    (df : DataFrame) :
  the_table w = None →
  get_current_trending E PAGES_TO_SCRAPE w = (Ok df, w1) →
  Pd.len df = 0 →
  ∃ w', main E w = (Ok tt, w')
    ∧ the_table w'
      = Some {| t_columns := "timestamp" :: metadata_cols; t_rows := [] |}.
Proof.
  intros Habsent. rewrite get_current_trending_run, main_run.
  destruct (scrape_pages E (seq 1 PAGES_TO_SCRAPE) [] w)
    as [[records|e] w0] eqn:Hloop; [|done].
  intros [= <- <-] Hlen.
  apply scrape_pages_Ok in Hloop as (_ & _ & Hs & _).
  assert (records = []) as ->.
  { unfold Pd.len in Hlen. rewrite batch_of_rows, length_map in Hlen.
    by apply nil_length_inv. }
  unfold finish. unfold mbind at 1, M_bind at 1. unfold put_frame.
  unfold mbind at 1, M_bind at 1. rewrite enrich_empty by done.
  unfold mbind at 1, M_bind at 1. unfold get_frame. cbn [frame].
  unfold mbind, M_bind, save_to_sqlite. cbn [store log trace frame].
  unfold the_table in Habsent. rewrite Hs, Habsent.
  cbn. eexists. split; [reflexivity|].
  unfold the_table. cbn. by rewrite lookup_insert_eq.
Qed.

Lemma empty_run_creates_table_without_id_witness :
  ∃ w', main SampleEmpty.E (start ∅) = (Ok tt, w')
    ∧ the_table w'
      = Some {| t_columns := "timestamp" :: metadata_cols; t_rows := [] |}.
Proof.
  apply (empty_run_creates_table_without_id SampleEmpty.E (start ∅)
           (get_current_trending SampleEmpty.E PAGES_TO_SCRAPE (start ∅)).2
           (batch_of SampleEmpty.E [])).
  - reflexivity.
  - vm_compute. reflexivity.
  - reflexivity.
Defined.

(** X10: when the table exists without an id column, a run whose fetches
    all go through and that finds a record raises an [OperationalError] at
    the write, after its lookups: the store refuses the insert, and the
    store is left as it was. *)
Theorem write_refused_without_id_column (E : env) (w : world) (tb : Table) :
  the_table w = Some tb →
  "id" ∉ t_columns tb →
  Forall (fun page => ¬ fetch_fails E page) (seq 1 PAGES_TO_SCRAPE) →
  flat_map (page_records E) (seq 1 PAGES_TO_SCRAPE) ≠ [] →
  ∃ e w',
    main E w = (Raise e, w')
    ∧ exn_class e = "OperationalError"
    ∧ store w' = store w
    ∧ trace w'
      = trace w ++ flat_map visit (seq 1 PAGES_TO_SCRAPE) ++ [EvClock]
        ++ concat (imap (lookup_events E)
                     (map (stamped E)
                        (flat_map (page_records E) (seq 1 PAGES_TO_SCRAPE))))
        ++ [EvToSql DB_PATH TABLE_NAME
              (length (flat_map (page_records E) (seq 1 PAGES_TO_SCRAPE)))].
Proof.
  intros Htable Hid Hfetch Hsome. rewrite main_run.
  destruct (scrape_pages_goes_through E (seq 1 PAGES_TO_SCRAPE) [] w Hfetch)
    as (records & w0 & Hloop).
  rewrite Hloop.
  pose proof (scrape_pages_records E _ _ _ _ _ Hloop) as Hrecs.
  cbn [app] in Hrecs. rewrite <- Hrecs in *.
  apply scrape_pages_Ok in Hloop as (Ht & _ & Hs & _ & Hrec).
  specialize (Hrec (Forall_nil_2 _)).
  pose proof (batch_of_has_ids E records Hrec) as Hids.
  destruct (finish_run E (batch_of E records) (log EvClock w0) Hids)
    as (w1 & Henrich & Hrows & Hcols & Hst & ->).
  pose proof (enrich_trace E {| trace := trace (log EvClock w0);
                                frame := batch_of E records;
                                store := store (log EvClock w0) |} Hids)
    as Htrace.
  rewrite Henrich in Htrace. cbn [snd trace frame log] in Htrace.
  destruct records as [|r records]; [done|].
  rewrite (batch_of_columns E r records Hrec) in Hcols.
  assert (fold_left Pd.add_label metadata_cols
            ["id"; "spr"; "stars"; "timestamp"] = TABLE_COLUMNS) as Hnine
    by reflexivity.
  rewrite Hnine in Hcols.
  unfold mbind, M_bind, save_to_sqlite.
  rewrite Hst. cbn [log store]. rewrite Hs.
  unfold the_table in Htable. rewrite Htable.
  unfold Sql.to_sql_append, Pd.len. rewrite Hrows, Hcols, batch_of_rows.
  cbn [map imap]. unfold TABLE_COLUMNS. cbn [app list_find].
  rewrite decide_True by done.
  eexists _, _. split; [reflexivity|]. split; [reflexivity|].
  cbn [store trace log]. split; [by rewrite Hst|].
  rewrite Htrace, Ht, batch_of_rows. cbn [length map].
  rewrite length_imap, length_map.
  by rewrite <- !app_assoc.
Qed.

Lemma write_refused_without_id_column_witness :
  ∃ e w',
    main SampleRun.E SampleNarrow.w = (Raise e, w')
    ∧ exn_class e = "OperationalError"
    ∧ store w' = store SampleNarrow.w
    ∧ trace w'
      = trace SampleNarrow.w ++ flat_map visit (seq 1 PAGES_TO_SCRAPE)
        ++ [EvClock]
        ++ concat (imap (lookup_events SampleRun.E)
                     (map (stamped SampleRun.E)
                        (flat_map (page_records SampleRun.E)
                           (seq 1 PAGES_TO_SCRAPE))))
        ++ [EvToSql DB_PATH TABLE_NAME
              (length (flat_map (page_records SampleRun.E)
                         (seq 1 PAGES_TO_SCRAPE)))].
Proof.
  apply (write_refused_without_id_column SampleRun.E SampleNarrow.w
           {| t_columns := "timestamp" :: metadata_cols; t_rows := [] |}).
  - reflexivity.
  - apply (bool_decide_unpack _). by vm_compute.
  - repeat constructor; vm_compute; discriminate.
  - vm_compute. discriminate.
Defined.

(** ** The phases of a completed run *)

(** X11: a run that completes has done, in this order and nothing else:
    the visits of the ten pages, one reading of the clock, the lookups of
    the rows, one write, and one summary line; the count in that line is
    the count of the write, the number of records the pages yielded and the
    number of rows the table has gained. *)
Theorem completed_run_phases (E : env) (w w' : world) :
  main E w = (Ok tt, w') →
  trace w'
  = trace w ++ flat_map visit (seq 1 PAGES_TO_SCRAPE) ++ [EvClock]
    ++ concat (imap (lookup_events E)
                 (map (stamped E)
                    (flat_map (page_records E) (seq 1 PAGES_TO_SCRAPE))))
    ++ [EvToSql DB_PATH TABLE_NAME
          (length (flat_map (page_records E) (seq 1 PAGES_TO_SCRAPE)));
        EvPrint
          (summary
             (length (flat_map (page_records E) (seq 1 PAGES_TO_SCRAPE))))]
  ∧ length (table_rows w')
    = length (table_rows w)
      + length (flat_map (page_records E) (seq 1 PAGES_TO_SCRAPE)).
Proof.
  rewrite main_run.
  destruct (scrape_pages E (seq 1 PAGES_TO_SCRAPE) [] w)
    as [[records|e] w0] eqn:Hloop; [|done].
  pose proof (scrape_pages_records E _ _ _ _ _ Hloop) as Hrecs.
  cbn [app] in Hrecs. rewrite <- Hrecs.
  apply scrape_pages_Ok in Hloop as (Ht & _ & Hs & _ & Hrec).
  specialize (Hrec (Forall_nil_2 _)).
  pose proof (batch_of_has_ids E records Hrec) as Hids.
  destruct (finish_run E (batch_of E records) (log EvClock w0) Hids)
    as (w1 & Henrich & Hrows & _ & Hst & ->).
  pose proof (enrich_trace E {| trace := trace (log EvClock w0);
                                frame := batch_of E records;
                                store := store (log EvClock w0) |} Hids)
    as Htrace.
  rewrite Henrich in Htrace. cbn [snd trace frame log] in Htrace.
  assert (Pd.len (frame w1) = length records) as Hlen.
  { unfold Pd.len. by rewrite Hrows, length_imap, batch_of_rows, length_map. }
  unfold mbind, M_bind.
  destruct (save_to_sqlite (frame w1) DB_PATH TABLE_NAME w1)
    as [[[]|e] w2] eqn:Hsave; [|done].
  intros [= <-].
  apply save_to_sqlite_Ok in Hsave as (tb & Htb & Hs2 & Ht2 & _).
  split.
  - cbn [trace log]. rewrite Ht2, Htrace, Ht, batch_of_rows, Hlen.
    by rewrite <- !app_assoc.
  - unfold table_rows, the_table. cbn [store log]. rewrite Hs2.
    rewrite lookup_insert_eq.
    apply to_sql_append_rows in Htb as [-> _].
    rewrite length_app, Hst. cbn [store log]. rewrite Hs.
    fold (Pd.len (frame w1)). rewrite Hlen.
    by destruct (store w !! (DB_PATH, TABLE_NAME)).
Qed.

Lemma completed_run_phases_witness :
  trace (main SampleRun.E (start ∅)).2
  = trace (start ∅) ++ flat_map visit (seq 1 PAGES_TO_SCRAPE) ++ [EvClock]
    ++ concat (imap (lookup_events SampleRun.E)
                 (map (stamped SampleRun.E)
                    (flat_map (page_records SampleRun.E)
                       (seq 1 PAGES_TO_SCRAPE))))
    ++ [EvToSql DB_PATH TABLE_NAME
          (length (flat_map (page_records SampleRun.E)
                     (seq 1 PAGES_TO_SCRAPE)));
        EvPrint
          (summary
             (length (flat_map (page_records SampleRun.E)
                        (seq 1 PAGES_TO_SCRAPE))))]
  ∧ length (table_rows (main SampleRun.E (start ∅)).2)
    = length (table_rows (start ∅))
      + length (flat_map (page_records SampleRun.E) (seq 1 PAGES_TO_SCRAPE)).
Proof.
  apply (completed_run_phases SampleRun.E (start ∅)).
  vm_compute. reflexivity.
Defined.

(** ** What the stripping step guarantees *)

Lemma in_descendants_elem (nm : string) (cs : list string)
    (a : gmap string string) (ks : list node) (d : node) :
  d ∈ Soup.descendants (Elem nm cs a ks)
  ↔ ∃ k, k ∈ ks ∧ (d = k ∨ d ∈ Soup.descendants k).
Proof.
  cbn [Soup.descendants]. rewrite list_elem_of_In, in_flat_map.
  split; intros (k & Hk & Hd); exists k.
  - apply list_elem_of_In in Hk. split; [done|].
    destruct Hd as [->|Hd]; [by left|]. right. by apply list_elem_of_In.
  - apply list_elem_of_In in Hk. split; [done|].
    destruct Hd as [->|Hd]; [by left|]. right. by apply list_elem_of_In.
Qed.

Lemma descendants_trans (n d d' : node) :
  d ∈ Soup.descendants n → d' ∈ Soup.descendants d →
  d' ∈ Soup.descendants n.
Proof.
  induction n as [s|nm cs a ks IH] using node_tree_ind.
  - cbn. intros H. by apply elem_of_nil in H.
  - intros Hd Hd'. apply in_descendants_elem in Hd as (k & Hk & Hd).
    apply in_descendants_elem. exists k. split; [done|]. right.
    destruct Hd as [->|Hd]; [done|].
    rewrite Forall_forall in IH. by apply (IH k Hk).
Qed.

Lemma decompose_all_idempotent (names : list string) (n : node) :
  Soup.decompose_all names (Soup.decompose_all names n)
  = Soup.decompose_all names n.
Proof.
  induction n as [s|nm cs a ks IH] using node_tree_ind; [done|].
  cbn [Soup.decompose_all]. f_equal.
  induction IH as [|k ks Hk _ IHks]; [done|].
  cbn [flat_map]. destruct (Soup.named_in names k) eqn:Hname; [done|].
  cbn [app flat_map]. rewrite named_in_decompose_all, Hname, Hk.
  cbn [app]. by f_equal.
Qed.

(** X12: no card the locator finds is one of the elements the script
    removes (head, header, footer, nav, svg, img), and nothing below a card
    is: what such an element held can reach neither an id nor the stars
    texts. Removing them a second time changes nothing, so the cards of a
    page are the cards of the stripped page. *)
Theorem cards_hold_no_stripped_element (soup : node) :
  Forall (fun card =>
            Soup.named_in UNWANTED card = false
            ∧ Forall (fun d => Soup.named_in UNWANTED d = false)
                (Soup.descendants card))
    (page_cards soup)
  ∧ page_cards (Soup.decompose_all UNWANTED soup) = page_cards soup
  ∧ extractor (Soup.decompose_all UNWANTED soup) = extractor soup.
Proof.
  pose proof (decompose_all_clean UNWANTED soup) as Hclean.
  rewrite Forall_forall in Hclean.
  assert (page_cards (Soup.decompose_all UNWANTED soup) = page_cards soup)
    as Hcards.
  { unfold page_cards. by rewrite decompose_all_idempotent. }
  split; [|split; [done|]].
  - apply Forall_forall. intros card Hcard.
    unfold page_cards, Soup.find_all in Hcard.
    apply list_elem_of_filter in Hcard as [_ Hin].
    split; [by apply Hclean|].
    apply Forall_forall. intros d Hd. apply Hclean.
    by eapply descendants_trans.
  - by rewrite !extractor_omap, Hcards.
Qed.

(** ** What [split] makes of a link target *)

Lemma string_app_cons (c : ascii) (a b : string) :
  String c a +:+ b = String c (a +:+ b).
Proof. reflexivity. Qed.






Section SplitJoin.

Variable sep : string.
Hypothesis sep_not_empty : sep ≠ "".








End SplitJoin.



(** ** The stars texts *)

Lemma lstrip_starts_clean (s : string) : starts_clean (Py.lstrip s).
Proof.
  induction s as [|c s IH]; [done|]. cbn [Py.lstrip].
  by destruct (Py.isspace c) eqn:Hc.
Qed.

Lemma lstrip_clean (s : string) : starts_clean s → Py.lstrip s = s.
Proof. destruct s as [|c s]; [done|]. cbn. by intros ->. Qed.

Lemma rstrip_cons (c : ascii) (s : string) :
  Py.rstrip (String c s)
  = match Py.rstrip s with
    | "" => if Py.isspace c then "" else String c ""
    | r => String c r
    end.
Proof. reflexivity. Qed.

Lemma rstrip_idempotent (s : string) : Py.rstrip (Py.rstrip s) = Py.rstrip s.
Proof.
  induction s as [|c s IH]; [done|]. rewrite rstrip_cons.
  destruct (Py.rstrip s) as [|d r] eqn:Hr.
  - destruct (Py.isspace c) eqn:Hc; [done|]. rewrite rstrip_cons. cbn.
    by rewrite Hc.
  - rewrite (rstrip_cons c (String d r)). by rewrite IH.
Qed.

Lemma rstrip_starts_clean (s : string) :
  starts_clean s → starts_clean (Py.rstrip s).
Proof.
  destruct s as [|c s]; [done|]. rewrite rstrip_cons. cbn [starts_clean].
  intros Hc. destruct (Py.rstrip s); [by rewrite Hc|done].
Qed.

Lemma strip_trimmed (s : string) : trimmed (Py.strip s).
Proof.
  unfold Py.strip. split.
  - apply rstrip_starts_clean, lstrip_starts_clean.
  - apply rstrip_idempotent.
Qed.

Lemma trimmed_strip (s : string) : trimmed s → Py.strip s = s.
Proof. intros [Hl Hr]. unfold Py.strip. by rewrite lstrip_clean. Qed.

Lemma rstrip_app (a b : string) :
  b ≠ "" → Py.rstrip b = b → Py.rstrip (a +:+ b) = a +:+ b.
Proof.
  intros Hne Hb. induction a as [|c a IH]; [done|].
  rewrite string_app_cons, rstrip_cons, IH.
  destruct (a +:+ b) eqn:Hab; [|done].
  destruct a; [|done]. by destruct Hne.
Qed.

Lemma trimmed_app (a b : string) :
  a ≠ "" → b ≠ "" → trimmed a → trimmed b → trimmed (a +:+ b).
Proof.
  intros Ha Hb [Hal _] [_ Hbr]. split; [|by apply rstrip_app].
  destruct a as [|c a]; [done|]. by rewrite string_app_cons.
Qed.

Lemma concat_trimmed (pieces : list string) :
  Forall (fun p => p ≠ "" ∧ trimmed p) pieces →
  trimmed (String.concat "" pieces) ∧ (pieces ≠ [] → String.concat "" pieces ≠ "").
Proof.
  induction 1 as [|p ps [Hne Hp] _ [IHt IHn]]; [done|].
  cbn [String.concat]. destruct ps as [|q qs]; [done|].
  assert (String.concat "" (q :: qs) ≠ "") as Hrest by (by apply IHn).
  change ("" +:+ String.concat "" (q :: qs))
    with (String.concat "" (q :: qs)).
  split; [by apply trimmed_app|].
  intros _. destruct p as [|c p]; [done|]. by rewrite string_app_cons.
Qed.

Lemma get_text_strip_trimmed (el : node) : trimmed (Soup.get_text_strip el).
Proof.
  unfold Soup.get_text_strip. apply concat_trimmed.
  apply Forall_forall. intros p Hp.
  apply list_elem_of_filter in Hp as [Htruthy Hin].
  apply list_elem_of_In, in_map_iff in Hin as (t & <- & _).
  split; [|apply strip_trimmed].
  apply truthy_true. by apply Is_true_eq_true.
Qed.

(** X14: the spr and stars fields of a record hold [None] exactly when
    the card has no stars element, respectively no badge; otherwise they
    hold a text that [strip] leaves as it is: no white space at either
    end. *)
Theorem stars_texts_are_trimmed (card : node) (r : record) :
  card_record card = Some r →
  (dict_get r "spr" = VNone ↔ Soup.find "div" STARS_CLASS card = None)
  ∧ (dict_get r "stars" = VNone ↔ Soup.find "span" BADGE_CLASS card = None)
  ∧ (∀ s, dict_get r "spr" = VStr s ∨ dict_get r "stars" = VStr s →
          Py.strip s = s).
Proof.
  unfold card_record.
  destruct (card_paper_id card) as [id|]; [|done].
  destruct (Py.truthy id); [|done]. intros [= <-].
  change (dict_get [("id", VStr id);
                    ("spr", opt_str (card_text STARS_CLASS "div" card));
                    ("stars", opt_str (card_text BADGE_CLASS "span" card))]
            "spr")
    with (opt_str (card_text STARS_CLASS "div" card)).
  change (dict_get [("id", VStr id);
                    ("spr", opt_str (card_text STARS_CLASS "div" card));
                    ("stars", opt_str (card_text BADGE_CLASS "span" card))]
            "stars")
    with (opt_str (card_text BADGE_CLASS "span" card)).
  unfold card_text.
  split; [by destruct (Soup.find "div" STARS_CLASS card)|].
  split; [by destruct (Soup.find "span" BADGE_CLASS card)|].
  intros s [H|H].
  - destruct (Soup.find "div" STARS_CLASS card) as [el|]; [|done].
    injection H as <-. apply trimmed_strip, get_text_strip_trimmed.
  - destruct (Soup.find "span" BADGE_CLASS card) as [el|]; [|done].
    injection H as <-. apply trimmed_strip, get_text_strip_trimmed.
Qed.

Lemma stars_texts_are_trimmed_witness :
  (dict_get [("id", VStr "abc123"); ("spr", VStr "12.3"); ("stars", VNone)]
     "spr" = VNone
   ↔ Soup.find "div" STARS_CLASS (Sample.half_card "/paper/abc123" " 12.3 ")
     = None)
  ∧ (dict_get [("id", VStr "abc123"); ("spr", VStr "12.3"); ("stars", VNone)]
       "stars" = VNone
     ↔ Soup.find "span" BADGE_CLASS
         (Sample.half_card "/paper/abc123" " 12.3 ") = None)
  ∧ (∀ s,
       dict_get [("id", VStr "abc123"); ("spr", VStr "12.3"); ("stars", VNone)]
         "spr" = VStr s
       ∨ dict_get [("id", VStr "abc123"); ("spr", VStr "12.3");
                   ("stars", VNone)] "stars" = VStr s →
       Py.strip s = s).
Proof.
  apply (stars_texts_are_trimmed (Sample.half_card "/paper/abc123" " 12.3 ")).
  vm_compute. reflexivity.
Defined.

(** ** The stamp and the zone of the host *)

(** X15: on a host whose zone is [utcoffset] seconds off UTC, and for a
    clock reading that, taken as local time, lies between the epoch and
    2^34 seconds after it, every row of the batch is stamped with the
    POSIX second of the clock reading less that offset; the stamp is the
    POSIX second exactly on the hosts whose offset is 0. *)
Theorem stamp_is_posix_less_zone_offset (E : env) (pages : nat)
    (w w' : world) (df : DataFrame) :
  (0 ≤ posix_micros E)%Z →
  in_exact_range (posix_micros E - utcoffset E * 1000000) →
  get_current_trending E pages w = (Ok df, w') →
  Forall (fun r : gmap string value =>
            r !! "timestamp"
            = Some (VInt (posix_seconds E - utcoffset E)%Z)) (rows df)
  ∧ (batch_stamp E = posix_seconds E ↔ utcoffset E = 0%Z).
Proof.
  intros Hclock Hzone. unfold in_exact_range in Hzone.
  assert (batch_stamp E = (posix_seconds E - utcoffset E)%Z) as Hstamp.
  { unfold batch_stamp, int_timestamp, posix_seconds.
    rewrite !Z.quot_div_nonneg by lia.
    replace (posix_micros E - utcoffset E * 1000000)%Z
      with (posix_micros E + (- utcoffset E) * 1000000)%Z by lia.
    rewrite Z.div_add by lia. lia. }
  rewrite get_current_trending_run.
  destruct (scrape_pages E (seq 1 pages) [] w) as [[records|e] w0];
    [|done].
  intros [= <- _]. split; [|lia].
  rewrite batch_of_rows. apply Forall_fmap, Forall_forall.
  intros r _. cbn. rewrite <- Hstamp. apply lookup_insert_eq.
Qed.

Lemma stamp_is_posix_less_zone_offset_witness :
  Forall (fun r : gmap string value =>
            r !! "timestamp"
            = Some (VInt (posix_seconds SampleZone.E
                          - utcoffset SampleZone.E)%Z))
    (rows (batch_of SampleZone.E (extractor Sample.two_cards)))
  ∧ (batch_stamp SampleZone.E = posix_seconds SampleZone.E
     ↔ utcoffset SampleZone.E = 0%Z).
Proof.
  apply (stamp_is_posix_less_zone_offset SampleZone.E PAGES_TO_SCRAPE
           (start ∅)
           (get_current_trending SampleZone.E PAGES_TO_SCRAPE (start ∅)).2).
  - vm_compute. discriminate.
  - split; vm_compute; [discriminate | reflexivity].
  - vm_compute. reflexivity.
Defined.

(** ** The table from run to run *)

(** X16: a completed run that starts from a table with the nine columns,
    or from no table and finds a card, leaves a table with the nine
    columns; a table that was there keeps its columns. *)
Theorem completed_run_keeps_table_ready (E : env) (w w' : world) :
  table_ready w →
  main E w = (Ok tt, w') →
  is_Some (the_table w) ∨ rows (frame w') ≠ [] →
  ∃ tb, the_table w' = Some tb
    ∧ Forall (fun c => c ∈ t_columns tb) TABLE_COLUMNS
    ∧ (∀ tb0, the_table w = Some tb0 → t_columns tb = t_columns tb0).
Proof.
  intros Hready. rewrite main_run.
  destruct (scrape_pages E (seq 1 PAGES_TO_SCRAPE) [] w)
    as [[records|e] w0] eqn:Hloop; [|done].
  apply scrape_pages_Ok in Hloop as (_ & _ & Hs & _ & Hrec).
  specialize (Hrec (Forall_nil_2 _)).
  destruct (finish_run E (batch_of E records) (log EvClock w0))
    as (w1 & _ & Hrows & Hcols & Hst & ->).
  { by apply batch_of_has_ids. }
  unfold mbind, M_bind.
  destruct (save_to_sqlite (frame w1) DB_PATH TABLE_NAME w1)
    as [[[]|e] w2] eqn:Hsave; [|done].
  intros [= <-]. cbn [log frame].
  apply save_to_sqlite_Ok in Hsave as (tb & Htb & Hs2 & _ & Hf2).
  rewrite Hf2. intros Hcase. exists tb.
  unfold the_table. cbn [log store]. rewrite Hs2, lookup_insert_eq.
  split; [done|].
  apply to_sql_append_rows in Htb as [_ Htc]. rewrite Htc, Hst.
  cbn [log store]. rewrite Hs.
  unfold table_ready, the_table in Hready, Hcase.
  destruct (store w !! (DB_PATH, TABLE_NAME)) as [tb0|]; cbn [from_option].
  - split; [done|]. by intros ? [= <-].
  - split; [|done]. destruct Hcase as [[? ?]|Hne]; [done|].
    rewrite Hcols. destruct records as [|r records].
    { rewrite Hrows in Hne. by destruct Hne. }
    rewrite (batch_of_columns E r records Hrec).
    repeat constructor; apply (bool_decide_unpack _); by vm_compute.
Qed.

Lemma completed_run_keeps_table_ready_witness :
  ∃ tb, the_table (main SampleRun.E (start ∅)).2 = Some tb
    ∧ Forall (fun c => c ∈ t_columns tb) TABLE_COLUMNS
    ∧ (∀ tb0, the_table (start ∅) = Some tb0 → t_columns tb = t_columns tb0).
Proof.
  apply (completed_run_keeps_table_ready SampleRun.E (start ∅)
           (main SampleRun.E (start ∅)).2).
  - vm_compute. exact I.
  - vm_compute. reflexivity.
  - right. vm_compute. discriminate.
Defined.
